(** * Betfair API-NG client: request envelopes and their JSON wire form

    This development embeds [betting.go] (and the earlier revision of the
    same file) and checks the statements of the specification against it.

    The Go file consists of struct declarations with [json] tags, the
    method [SetProjections], seven [List...] operations and the helper
    [doBettingRequest].  What the program does with those declarations is
    decided by Go's reflection driven [encoding/json]; that package is
    embedded here as a generic encoder and decoder over type descriptors,
    and every struct of the source becomes one descriptor, field by field
    and tag by tag.

    Conventions of the embedding.
    - A JSON text is represented by the document it spells ([json]):
      objects keep the order and the duplicates of their members, string
      nodes hold the unescaped bytes, number nodes hold the literal.
    - Go's [int] is the 64 bit integer, as on the platforms the library
      is built for.
    - A pointer is [option] of its pointee.  The one write through a
      pointer, [params.Locale = ...] in [doBettingRequest], is to the
      envelope its caller has just allocated and drops afterwards, so
      aliasing is not observable.
    - A slice is [option (list _)]: [None] is the nil slice, [Some []]
      the empty one; the encoder tells them apart.
    - The parts of the Go library whose results are tables or numeric
      algorithms ([strconv] on floats, the lenient RFC 3339 reader of
      [time], Unicode case folding) are taken as the operations of a
      [GoLibrary]; everything is stated for an arbitrary one. *)

From Stdlib Require Import ZArith NArith String Ascii List Lia Bool.
From Stdlib Require Import DecimalString DecimalZ DecimalPos Decimal.
From Stdlib Require Import Floats.SpecFloat.
From stdpp Require Import base option list gmap strings sorting.
Import ListNotations.
Local Open Scope string_scope.
Local Open Scope list_scope.
Local Open Scope Z_scope.
Local Set Warnings "-register-all".

(* ================================================================= *)
(** ** Errors and results *)

(** The [error] values that can reach a caller of this package. *)
Inductive error : Type :=
| UnsupportedValueError (what : string)   (* json: NaN or an infinity *)
| UnsupportedTypeError                    (* json: value and type disagree *)
| MarshalerError (msg : string)           (* json: MarshalJSON of time.Time failed *)
| SyntaxError (msg : string)              (* json: the text is not JSON *)
| UnmarshalTypeError (found : string) (target : string)
| TimeParseError (text : string)          (* time: UnmarshalJSON failed *)
| TransportError (msg : string).          (* whatever doRequest reports *)

Inductive result (A : Type) : Type :=
| Ok (a : A)
| Err (e : error).
Arguments Ok {A} a.
Arguments Err {A} e.

Definition bind {A B} (k : A -> result B) (r : result A) : result B :=
  match r with
  | Ok a => k a
  | Err e => Err e
  end.

#[global] Instance result_ret : MRet result := fun A a => Ok a.
#[global] Instance result_bind : MBind result := fun A B k r => bind k r.

(* ================================================================= *)
(** ** Strings: coercion to valid UTF-8

    [encoding/json] writes a Go string byte by byte; a byte at which
    [utf8.DecodeRuneInString] reports [(RuneError, 1)] is replaced by
    U+FFFD.  Escaping is a matter of the text only and does not change the
    string a reader gets back. *)

Definition byteval (c : ascii) : N := N_of_ascii c.

Definition between (lo hi : N) (c : ascii) : bool :=
  ((lo <=? byteval c) && (byteval c <=? hi))%N.

(** Continuation byte, [0x80..0xBF]. *)
Definition isCont (c : ascii) : bool := between 128 191 c.

(** The three bytes of U+FFFD. *)
Definition replacementChar : string :=
  String (ascii_of_N 239) (String (ascii_of_N 191) (String (ascii_of_N 189) EmptyString)).

(** Accepted range of the second byte for a three byte lead. *)
Definition accept3 (lead : ascii) : option (N * N) :=
  let b := byteval lead in
  if (b =? 224)%N then Some (160, 191)%N
  else if (b =? 237)%N then Some (128, 159)%N
  else if ((225 <=? b) && (b <=? 239))%N then Some (128, 191)%N
  else None.

(** Accepted range of the second byte for a four byte lead. *)
Definition accept4 (lead : ascii) : option (N * N) :=
  let b := byteval lead in
  if (b =? 240)%N then Some (144, 191)%N
  else if (b =? 244)%N then Some (128, 143)%N
  else if ((241 <=? b) && (b <=? 243))%N then Some (128, 191)%N
  else None.

Fixpoint toValidUTF8 (s : string) : string :=
  match s with
  | EmptyString => EmptyString
  | String a rest =>
      let bad := (replacementChar ++ toValidUTF8 rest)%string in
      if (byteval a <? 128)%N then String a (toValidUTF8 rest)
      else if between 194 223 a then
        match rest with
        | String b r1 =>
            if isCont b then String a (String b (toValidUTF8 r1)) else bad
        | _ => bad
        end
      else match accept3 a, accept4 a with
      | Some (lo, hi), _ =>
          match rest with
          | String b (String c r2) =>
              if between lo hi b && isCont c
              then String a (String b (String c (toValidUTF8 r2)))
              else bad
          | _ => bad
          end
      | None, Some (lo, hi) =>
          match rest with
          | String b (String c (String d r3)) =>
              if between lo hi b && isCont c && isCont d
              then String a (String b (String c (String d (toValidUTF8 r3))))
              else bad
          | _ => bad
          end
      | None, None => bad
      end
  end.

Definition validUTF8 (s : string) : bool := String.eqb (toValidUTF8 s) s.

(* ================================================================= *)
(** ** float32 and time.Time *)

(** A [float32] is an IEEE 754 binary32 datum. *)
Definition float32 : Type := spec_float.

Definition float32_zero : float32 := S754_zero false.

(** [v.Float() == 0]: both zeros compare equal to 0. *)
Definition float32_isZero (f : float32) : bool :=
  match f with
  | S754_zero _ => true
  | _ => false
  end.

(** [math.IsInf(f, 0) || math.IsNaN(f)]. *)
Definition float32_isInfOrNaN (f : float32) : bool :=
  match f with
  | S754_infinity _ | S754_nan => true
  | _ => false
  end.

(** A [*time.Location] as far as formatting sees it: UTC (the nil
    location), or some zone with its name. *)
Inductive Location : Type :=
| UTC
| Zone (name : string).

(** A [time.Time] through its accessors: [Date], [Clock], [Nanosecond]
    and [Zone] in the time's own location, the location, and the
    monotonic clock reading when it has one. *)
Record Time : Type := mkTime {
  year : Z;
  month : Z;
  day : Z;
  hour : Z;
  minute : Z;
  second : Z;
  nanosecond : Z;
  zoneOffset : Z;          (* seconds east of UTC *)
  location : Location;
  monotonic : option Z
}.

(** [time.Time{}]: January 1, year 1, 00:00:00 UTC. *)
Definition Time_zero : Time :=
  mkTime 1 1 1 0 0 0 0 0 UTC None.

Definition isLeap (y : Z) : bool :=
  (y mod 4 =? 0) && (negb (y mod 100 =? 0) || (y mod 400 =? 0)).

Definition daysIn (m y : Z) : Z :=
  if m =? 2 then (if isLeap y then 29 else 28)
  else if (m =? 4) || (m =? 6) || (m =? 9) || (m =? 11) then 30
  else 31.

Definition Time_wf (t : Time) : bool :=
  (1 <=? month t) && (month t <=? 12) &&
  (1 <=? day t) && (day t <=? daysIn (month t) (year t)) &&
  (0 <=? hour t) && (hour t <=? 23) &&
  (0 <=? minute t) && (minute t <=? 59) &&
  (0 <=? second t) && (second t <=? 59) &&
  (0 <=? nanosecond t) && (nanosecond t <=? 999999999) &&
  match location t with
  | UTC => zoneOffset t =? 0
  | Zone _ => true
  end.

Definition digit (n : Z) : ascii := ascii_of_N (Z.to_N (48 + n mod 10)).

(** [appendInt(b, n, 2)] and [appendInt(b, n, 4)] for [n] within the width. *)
Definition appendInt2 (n : Z) (k : string) : string :=
  String (digit (n / 10)) (String (digit n) k).

Definition appendInt4 (n : Z) (k : string) : string :=
  String (digit (n / 1000)) (String (digit (n / 100)) (appendInt2 n k)).

(** The nine digits of the fraction, trailing zeros removed
    ([appendNano] with the [stdFracSecond9] layout). *)
Fixpoint fracDigits (width : nat) (n : Z) : string :=
  match width with
  | O => EmptyString
  | S w =>
      if n =? 0 then EmptyString
      else String (digit (n / 10 ^ Z.of_nat w))
                  (fracDigits w (n mod 10 ^ Z.of_nat w))
  end.

Definition appendNano (ns : Z) (k : string) : string :=
  if ns =? 0 then k else String "." (fracDigits 9 ns ++ k)%string.

Definition appendZone (offset : Z) : string :=
  if offset =? 0 then "Z"
  else
    let zone := Z.quot offset 60 in
    let sign := if zone <? 0 then "-"%char else "+"%char in
    let zone := Z.abs zone in
    String sign (appendInt2 (zone / 60) (String ":" (appendInt2 (zone mod 60) EmptyString))).

(** [Time.MarshalJSON]: the RFC 3339 text with nanoseconds, refused
    when the year does not fit four digits or the zone hour two. *)
Definition Time_MarshalJSON (t : Time) : result string :=
  if (year t <? 0) || (9999 <? year t) then
    Err (MarshalerError "Time.MarshalJSON: year outside of range [0,9999]")
  else if 24 <=? Z.abs (Z.quot (zoneOffset t) 60) / 60 then
    Err (MarshalerError "Time.MarshalJSON: timezone hour outside of range [0,23]")
  else
    Ok (appendInt4 (year t) (String "-" (appendInt2 (month t) (String "-"
       (appendInt2 (day t) (String "T" (appendInt2 (hour t) (String ":"
       (appendInt2 (minute t) (String ":" (appendInt2 (second t)
       (appendNano (nanosecond t) (appendZone (zoneOffset t)))))))))))))).

(* ================================================================= *)
(** ** The operations taken from the Go library *)

Class GoLibrary : Type := {
  (** [strconv.AppendFloat(b, f, fmt, -1, 32)] with the format the JSON
      encoder picks; called on finite values only. *)
  formatFloat32 : float32 -> string;
  (** [strconv.ParseFloat(s, 32)]; [None] for a syntax or range error. *)
  parseFloat32 : string -> option float32;
  (** The reader inside [Time.UnmarshalJSON], on the unquoted text. *)
  parseTime : string -> option Time;
  (** The folded form of a member name under which the decoder matches
      it to a field when no field has exactly that name. *)
  foldName : string -> string
}.

(* ================================================================= *)
(** ** JSON documents *)

Inductive json : Type :=
| JNull
| JBool (b : bool)
| JNumber (literal : string)
| JString (s : string)
| JArray (elems : list json)
| JObject (members : list (string * json)).

Definition keys (j : json) : list string :=
  match j with
  | JObject ms => map fst ms
  | _ => []
  end.

Definition member (k : string) (j : json) : option json :=
  match j with
  | JObject ms => snd <$> find (fun m => String.eqb (fst m) k) ms
  | _ => None
  end.

(** [strconv.AppendInt(b, n, 10)]. *)
Definition formatInt (n : Z) : string :=
  NilZero.string_of_int (Z.to_int n).

(** [strconv.ParseInt(s, 10, 64)] before the range check. *)
Definition parseInt (s : string) : option Z :=
  Z.of_int <$> NilZero.int_of_string s.

(* ================================================================= *)
(** ** Go types and values as reflection sees them *)

(** The [json] tag of a struct field: [json:"name,omitempty"]. *)
Record Tag : Type := mkTag {
  tagName : string;
  omitempty : bool
}.

(** The kinds of type that occur in the package.  The named string types
    ([OrderProjVal], [SideVal], ...) have kind string; [time.Time] is kept
    apart from the structs because it brings its own [MarshalJSON]. *)
Inductive GoType : Type :=
| TBool
| TInt
| TUint32
| TFloat32
| TString
| TTime
| TPtr (elem : GoType)
| TSlice (elem : GoType)
| TMapStringString
| TStruct (name : string) (fields : list (string * option Tag * GoType)).

(** A struct field: its Go name, its type and its tag, in the order of
    the declaration. *)
Definition Field : Type := string * option Tag * GoType.

Definition field (goName : string) (t : GoType) : Field := (goName, None, t).

Definition tagged (goName : string) (t : GoType) (name : string) (omit : bool) : Field :=
  (goName, Some (mkTag name omit), t).

Definition fieldGoName (f : Field) : string := f.1.1.
Definition fieldType (f : Field) : GoType := f.2.

(** The member name of a field: the name in the tag, the Go name without. *)
Definition fieldKey (f : Field) : string :=
  match f.1.2 with
  | Some tg => if String.eqb (tagName tg) EmptyString then fieldGoName f else tagName tg
  | None => fieldGoName f
  end.

Definition fieldOmitEmpty (f : Field) : bool :=
  match f.1.2 with
  | Some tg => omitempty tg
  | None => false
  end.

Inductive value : Type :=
| VBool (b : bool)
| VInt (n : Z)
| VUint32 (n : Z)
| VFloat32 (f : float32)
| VString (s : string)
| VTime (t : Time)
| VNil                          (* the nil pointer, slice or map *)
| VPtr (pointee : value)
| VSlice (elems : list value)
| VMap (m : gmap string string)
| VStruct (fieldValues : list value).

(** The zero value of a type. *)
Fixpoint zero (t : GoType) : value :=
  match t with
  | TBool => VBool false
  | TInt => VInt 0
  | TUint32 => VUint32 0
  | TFloat32 => VFloat32 float32_zero
  | TString => VString EmptyString
  | TTime => VTime Time_zero
  | TPtr _ | TSlice _ | TMapStringString => VNil
  | TStruct _ fs =>
      VStruct ((fix zeros (fs : list Field) : list value :=
                  match fs with
                  | [] => []
                  | f :: fs' => zero f.2 :: zeros fs'
                  end) fs)
  end.

Definition zeros (fs : list Field) : list value := map (fun f => zero (fieldType f)) fs.

(** [v] is a value of type [t]. *)
Fixpoint has_type (v : value) (t : GoType) {struct v} : bool :=
  match v, t with
  | VBool _, TBool => true
  | VInt n, TInt => (- 2 ^ 63 <=? n) && (n <? 2 ^ 63)
  | VUint32 n, TUint32 => (0 <=? n) && (n <? 2 ^ 32)
  | VFloat32 f, TFloat32 => valid_binary 24 128 f
  | VString _, TString => true
  | VTime tm, TTime => Time_wf tm
  | VNil, (TPtr _ | TSlice _ | TMapStringString) => true
  | VPtr p, TPtr te => has_type p te
  | VSlice l, TSlice te =>
      (fix all (l : list value) : bool :=
         match l with
         | [] => true
         | x :: l' => has_type x te && all l'
         end) l
  | VMap _, TMapStringString => true
  | VStruct vs, TStruct _ fs =>
      (fix all (vs : list value) (fs : list Field) : bool :=
         match vs, fs with
         | [], [] => true
         | x :: vs', f :: fs' => has_type x f.2 && all vs' fs'
         | _, _ => false
         end) vs fs
  | _, _ => false
  end.

(** [isEmptyValue] of [encoding/json]: false, 0, a nil pointer, and any
    array, slice, map or string of length zero.  A struct is never empty. *)
Definition isEmptyValue (v : value) : bool :=
  match v with
  | VBool b => negb b
  | VInt n | VUint32 n => n =? 0
  | VFloat32 f => float32_isZero f
  | VString s => String.eqb s EmptyString
  | VNil => true
  | VSlice l => match l with [] => true | _ => false end
  | VMap m => bool_decide (m = ∅)
  | VTime _ | VPtr _ | VStruct _ => false
  end.

(** Members of a map are written in the order of their keys. *)
Definition keyLe (a b : string * string) : Prop := String.leb a.1 b.1 = true.

#[global] Instance keyLe_dec : RelDecision keyLe.
Proof. intros a b. unfold keyLe. apply _. Defined.

Definition sortedEntries (m : gmap string string) : list (string * string) :=
  merge_sort keyLe (map_to_list m).

Section Marshal.
Context {L : GoLibrary}.

Definition encodeFloat32 (f : float32) : result json :=
  match f with
  | S754_nan => Err (UnsupportedValueError "NaN")
  | S754_infinity false => Err (UnsupportedValueError "+Inf")
  | S754_infinity true => Err (UnsupportedValueError "-Inf")
  | _ => Ok (JNumber (formatFloat32 f))
  end.

Definition encodeTime (t : Time) : result json :=
  match Time_MarshalJSON t with
  | Ok s => Ok (JString s)
  | Err e => Err e
  end.

Definition encodeMap (m : gmap string string) : json :=
  JObject (map (fun kv => (toValidUTF8 kv.1, JString (toValidUTF8 kv.2)))
               (sortedEntries m)).

(** The encoder chosen by the type, applied to the value.  The first
    error ends the encoding. *)
Fixpoint encode (v : value) (t : GoType) {struct v} : result json :=
  match v, t with
  | VBool b, TBool => Ok (JBool b)
  | VInt n, TInt => Ok (JNumber (formatInt n))
  | VUint32 n, TUint32 => Ok (JNumber (formatInt n))
  | VFloat32 f, TFloat32 => encodeFloat32 f
  | VString s, TString => Ok (JString (toValidUTF8 s))
  | VTime tm, TTime => encodeTime tm
  | VNil, (TPtr _ | TSlice _ | TMapStringString) => Ok JNull
  | VPtr p, TPtr te => encode p te
  | VSlice l, TSlice te =>
      js ← (fix elems (l : list value) : result (list json) :=
              match l with
              | [] => Ok []
              | x :: l' =>
                  j ← encode x te;
                  js ← elems l';
                  Ok (j :: js)
              end) l;
      Ok (JArray js)
  | VMap m, TMapStringString => Ok (encodeMap m)
  | VStruct vs, TStruct _ fs =>
      ms ← (fix members (vs : list value) (fs : list Field)
              : result (list (string * json)) :=
              match vs, fs with
              | x :: vs', f :: fs' =>
                  if fieldOmitEmpty f && isEmptyValue x then members vs' fs'
                  else
                    j ← encode x f.2;
                    ms ← members vs' fs';
                    Ok ((fieldKey f, j) :: ms)
              | [], [] => Ok []
              | _, _ => Err UnsupportedTypeError
              end) vs fs;
      Ok (JObject ms)
  | _, _ => Err UnsupportedTypeError
  end.

(** [json.Marshal(v)] for a [v] of static type [t]. *)
Definition Marshal (t : GoType) (v : value) : result json := encode v t.

End Marshal.

(* ================================================================= *)
(** ** The decoder *)

(** What [Unmarshal] receives: a JSON text, or bytes that are not one. *)
Inductive document : Type :=
| Text (j : json)
| Garbage (why : string).

(** The decoder keeps the first type error and goes on ([saveError]);
    an error returned by an [UnmarshalJSON] method ends the decoding. *)
Inductive status : Type :=
| Good
| Saved (e : error)
| Abort (e : error).

Definition andThen (before after : status) : status :=
  match before, after with
  | Abort e, _ => Abort e
  | _, Abort e => Abort e
  | Saved e, _ => Saved e
  | Good, s => s
  end.

Definition typeName (t : GoType) : string :=
  match t with
  | TBool => "bool"
  | TInt => "int"
  | TUint32 => "uint32"
  | TFloat32 => "float32"
  | TString => "string"
  | TTime => "time.Time"
  | TPtr _ => "pointer"
  | TSlice _ => "slice"
  | TMapStringString => "map[string]string"
  | TStruct name _ => name
  end.

(** [indirect]: walk down the pointers of the target, allocating a zero
    pointee where the pointer is nil.  The result is the type and value to
    store into and the number of pointers walked. *)
Fixpoint indirect (t : GoType) (old : value) : GoType * value * nat :=
  match t with
  | TPtr te =>
      let pointee := match old with VPtr p => p | _ => zero te end in
      let '(t', v', n) := indirect te pointee in
      (t', v', S n)
  | _ => (t, old, O)
  end.

Fixpoint wrapPtr (n : nat) (v : value) : value :=
  match n with
  | O => v
  | S n' => VPtr (wrapPtr n' v)
  end.

(** [null] sets a pointer, slice or map to nil and leaves anything else
    as it is. *)
Definition storeNull (t : GoType) (old : value) : value :=
  match t with
  | TPtr _ | TSlice _ | TMapStringString => VNil
  | _ => old
  end.

(** [strconv.ParseUint(s, 10, 64)] takes no sign. *)
Definition parseUint (s : string) : option Z :=
  match s with
  | String "-" _ | String "+" _ => None
  | _ => parseInt s
  end.

Section Unmarshal.
Context {L : GoLibrary}.

(** The field a member name selects: the field of exactly that name,
    otherwise the first whose folded name is the folded member name. *)
Definition findField (fs : list Field) (key : string) : option nat :=
  match list_find (fun f => fieldKey f = key) fs with
  | Some (i, _) => Some i
  | None => fst <$> list_find (fun f => foldName (fieldKey f) = foldName key) fs
  end.

Definition mismatch (found : string) (t : GoType) (old : value) : value * status :=
  (old, Saved (UnmarshalTypeError found (typeName t))).

(** A literal into a target that is not a pointer. *)
Definition literalStore (j : json) (t : GoType) (old : value) : value * status :=
  match t, j with
  | TTime, JString s =>
      match parseTime s with
      | Some tm => (VTime tm, Good)
      | None => (VTime Time_zero, Abort (TimeParseError s))
      end
  | TTime, _ =>
      (old, Abort (TimeParseError "Time.UnmarshalJSON: input is not a JSON string"))
  | TBool, JBool b => (VBool b, Good)
  | _, JBool _ => mismatch "bool" t old
  | TString, JString s => (VString s, Good)
  | _, JString _ => mismatch "string" t old
  | TInt, JNumber lit =>
      match parseInt lit with
      | Some n =>
          if (- 2 ^ 63 <=? n) && (n <? 2 ^ 63) then (VInt n, Good)
          else mismatch ("number " ++ lit)%string t old
      | None => mismatch ("number " ++ lit)%string t old
      end
  | TUint32, JNumber lit =>
      match parseUint lit with
      | Some n =>
          if n <? 2 ^ 32 then (VUint32 n, Good)
          else mismatch ("number " ++ lit)%string t old
      | None => mismatch ("number " ++ lit)%string t old
      end
  | TFloat32, JNumber lit =>
      match parseFloat32 lit with
      | Some f => (VFloat32 f, Good)
      | None => mismatch ("number " ++ lit)%string t old
      end
  | _, JNumber _ => mismatch "number" t old
  | _, _ => (old, Good)
  end.

Definition oldElems (old : value) : list value :=
  match old with
  | VSlice l => l
  | _ => []
  end.

Definition oldFields (fs : list Field) (old : value) : list value :=
  match old with
  | VStruct vs => vs
  | _ => zeros fs
  end.

Definition oldMap (old : value) : gmap string string :=
  match old with
  | VMap m => m
  | _ => ∅
  end.

Definition stringOf (v : value) : string :=
  match v with
  | VString s => s
  | _ => EmptyString
  end.

(** [d.value]: decode the document [j] into the target of type [t]
    that currently holds [old]. *)
Fixpoint decode (j : json) (t : GoType) (old : value) {struct j} : value * status :=
  match j with
  | JNull => (storeNull t old, Good)
  | JBool _ | JNumber _ | JString _ =>
      let '(t', target, n) := indirect t old in
      let (v, st) := literalStore j t' target in
      (wrapPtr n v, st)
  | JArray l =>
      let '(t', target, n) := indirect t old in
      match t' with
      | TTime =>
          (wrapPtr n target,
           Abort (TimeParseError "Time.UnmarshalJSON: input is not a JSON string"))
      | TSlice te =>
          let (vs, st) :=
            (fix elems (l : list json) (olds : list value) : list value * status :=
               match l with
               | [] => ([], Good)
               | x :: l' =>
                   let (v, st) := decode x te (hd (zero te) olds) in
                   match st with
                   | Abort e => (v :: tl olds, Abort e)
                   | _ =>
                       let (vs, st') := elems l' (tl olds) in
                       (v :: vs, andThen st st')
                   end
               end) l (oldElems target) in
          (wrapPtr n (VSlice vs), st)
      | _ =>
          let (v, st) := mismatch "array" t' target in
          (wrapPtr n v, st)
      end
  | JObject ms =>
      let '(t', target, n) := indirect t old in
      match t' with
      | TTime =>
          (wrapPtr n target,
           Abort (TimeParseError "Time.UnmarshalJSON: input is not a JSON string"))
      | TStruct _ fs =>
          let (vs, st) :=
            (fix members (ms : list (string * json)) (vs : list value)
               : list value * status :=
               match ms with
               | [] => (vs, Good)
               | (k, x) :: ms' =>
                   match findField fs k with
                   | None => members ms' vs
                   | Some i =>
                       let ft := nth i (map fieldType fs) TBool in
                       let (v, st) := decode x ft (nth i vs (zero ft)) in
                       let vs1 := <[i := v]> vs in
                       match st with
                       | Abort e => (vs1, Abort e)
                       | _ =>
                           let (vs2, st') := members ms' vs1 in
                           (vs2, andThen st st')
                       end
                   end
               end) ms (oldFields fs target) in
          (wrapPtr n (VStruct vs), st)
      | TMapStringString =>
          let (m, st) :=
            (fix members (ms : list (string * json)) (m : gmap string string)
               : gmap string string * status :=
               match ms with
               | [] => (m, Good)
               | (k, x) :: ms' =>
                   let (v, st) := decode x TString (VString EmptyString) in
                   let m1 := <[k := stringOf v]> m in
                   match st with
                   | Abort e => (m1, Abort e)
                   | _ =>
                       let (m2, st') := members ms' m1 in
                       (m2, andThen st st')
                   end
               end) ms (oldMap target) in
          (wrapPtr n (VMap m), st)
      | _ =>
          let (v, st) := mismatch "object" t' target in
          (wrapPtr n v, st)
      end
  end.

(** [json.Unmarshal(data, &v)] for a [v] of static type [t]: the text
    is checked first, and bytes that are not JSON leave [v] alone. *)
Definition Unmarshal (data : document) (t : GoType) (old : value)
  : value * option error :=
  match data with
  | Garbage why => (old, Some (SyntaxError why))
  | Text j =>
      let (v, st) := decode j t old in
      (v, match st with
          | Good => None
          | Saved e | Abort e => Some e
          end)
  end.

End Unmarshal.

(* ================================================================= *)
(** ** betting.go: enumerated values *)

Definition baseEnumVal : Type := string.
Definition OrderProjVal : Type := baseEnumVal.
Definition MarketProjVal : Type := baseEnumVal.
Definition MatchProjVal : Type := baseEnumVal.
Definition PriceDataVal : Type := baseEnumVal.
Definition RunnerStatusVal : Type := baseEnumVal.
Definition OrderTypeVal : Type := baseEnumVal.
Definition OrderStatusVal : Type := baseEnumVal.
Definition PersistenceTypeVal : Type := baseEnumVal.
Definition SideVal : Type := baseEnumVal.

(** In each [const] block only the first name is given the enum type;
    the others are untyped string constants. *)
Definition SideBack : SideVal := "BACK".
Definition SideLay : string := "LAY".

Definition OrderProjectionAll : OrderProjVal := "ALL".
Definition OrderProjectionExecutable : string := "EXECUTABLE".
Definition OrderProjectionExecutionComplete : string := "EXECUTION_COMPLETE".

Definition OrderStatusExecutionComplete : OrderStatusVal := OrderProjectionExecutionComplete.
Definition OrderStatusExecutable : string := OrderProjectionExecutable.

Definition MatchProjectionNoRollup : MatchProjVal := "NO_ROLLUP".
Definition MatchProjectionRolledUpByPrice : string := "ROLLED_UP_BY_PRICE".
Definition MatchProjectionRolledUpByAvgPrice : string := "ROLLED_UP_BY_AVG_PRICE".

Definition MarketProjectionCompetition : MarketProjVal := "COMPETITION".
Definition MarketProjectionEvent : string := "EVENT".
Definition MarketProjectionEventType : string := "EVENT_TYPE".
Definition MarketProjectionMarketStartTime : string := "MARKET_START_TIME".
Definition MarketProjectionMarketDescription : string := "MARKET_DESCRIPTION".
Definition MarketProjectionRunnerDescription : string := "RUNNER_DESCRIPTION".
Definition MarketProjectionRunnerMetadata : string := "RUNNER_METADATA".

Definition PriceDataSPAvailable : PriceDataVal := "SP_AVAILABLE".
Definition PriceDataSPTraded : string := "SP_TRADED".
Definition PriceDataEXBestOffers : string := "EX_BEST_OFFERS".
Definition PriceDataEXAllOffers : string := "EX_ALL_OFFERS".
Definition PriceDataEXTraded : string := "EX_TRADED".

Definition RunnerStatusActive : RunnerStatusVal := "ACTIVE".
Definition RunnerStatusWinner : string := "WINNER".
Definition RunnerStatusLoser : string := "LOSER".
Definition RunnerStatusRemovedVacant : string := "REMOVED_VACANT".
Definition RunnerStatusRemoved : string := "REMOVED".
Definition RunnerStatusHidden : string := "HIDDEN".

Definition PersistenceTypeLapse : PersistenceTypeVal := "LAPSE".
Definition PersistenceTypePersist : string := "PERSIST".
Definition PersistenceTypeMarketOnClose : string := "MARKET_ON_CLOSE".

Definition OrderTypeLimit : OrderTypeVal := "LIMIT".
Definition OrderTypeLimitOnClose : string := "LIMIT_ON_CLOSE".
Definition OrderTypeMarketOnClose : string := "MARKET_ON_CLOSE".

(** The declared constants, with the literal each one is declared with. *)
Definition enumConstants : list (string * string) :=
  [ (SideBack, "BACK"); (SideLay, "LAY");
    (OrderProjectionAll, "ALL");
    (OrderProjectionExecutable, "EXECUTABLE");
    (OrderProjectionExecutionComplete, "EXECUTION_COMPLETE");
    (OrderStatusExecutionComplete, "EXECUTION_COMPLETE");
    (OrderStatusExecutable, "EXECUTABLE");
    (MatchProjectionNoRollup, "NO_ROLLUP");
    (MatchProjectionRolledUpByPrice, "ROLLED_UP_BY_PRICE");
    (MatchProjectionRolledUpByAvgPrice, "ROLLED_UP_BY_AVG_PRICE");
    (MarketProjectionCompetition, "COMPETITION");
    (MarketProjectionEvent, "EVENT");
    (MarketProjectionEventType, "EVENT_TYPE");
    (MarketProjectionMarketStartTime, "MARKET_START_TIME");
    (MarketProjectionMarketDescription, "MARKET_DESCRIPTION");
    (MarketProjectionRunnerDescription, "RUNNER_DESCRIPTION");
    (MarketProjectionRunnerMetadata, "RUNNER_METADATA");
    (PriceDataSPAvailable, "SP_AVAILABLE");
    (PriceDataSPTraded, "SP_TRADED");
    (PriceDataEXBestOffers, "EX_BEST_OFFERS");
    (PriceDataEXAllOffers, "EX_ALL_OFFERS");
    (PriceDataEXTraded, "EX_TRADED");
    (RunnerStatusActive, "ACTIVE");
    (RunnerStatusWinner, "WINNER");
    (RunnerStatusLoser, "LOSER");
    (RunnerStatusRemovedVacant, "REMOVED_VACANT");
    (RunnerStatusRemoved, "REMOVED");
    (RunnerStatusHidden, "HIDDEN");
    (PersistenceTypeLapse, "LAPSE");
    (PersistenceTypePersist, "PERSIST");
    (PersistenceTypeMarketOnClose, "MARKET_ON_CLOSE");
    (OrderTypeLimit, "LIMIT");
    (OrderTypeLimitOnClose, "LIMIT_ON_CLOSE");
    (OrderTypeMarketOnClose, "MARKET_ON_CLOSE") ].

(* ================================================================= *)
(** ** betting.go: the struct declarations, as reflection reads them *)

Module T.

Definition MarketFilter : GoType := TStruct "MarketFilter"
  [ tagged "TextQuery" TString "textQuery" true;
    tagged "ExchangeIds" (TSlice TString) "exchangeIds" true;
    tagged "EventTypeIds" (TSlice TString) "eventTypeIds" true;
    tagged "EventIds" (TSlice TString) "eventIds" true;
    tagged "CompetitionIds" (TSlice TString) "competitionIds" true;
    tagged "MarketCountries" (TSlice TString) "marketCountries" true;
    tagged "MarketIds" (TSlice TString) "marketIds" true;
    tagged "MarketTypeCodes" (TSlice TString) "marketTypeCodes" true ].

Definition PriceProjection : GoType := TStruct "PriceProjection"
  [ tagged "PriceData" (TSlice TString) "priceData" true ].

Definition Params : GoType := TStruct "Params"
  [ tagged "MarketFilter" (TPtr MarketFilter) "filter" true;
    tagged "MarketIds" (TSlice TString) "marketIds" true;
    tagged "PriceProjection" (TPtr PriceProjection) "priceProjection" true;
    tagged "MarketProjection" (TSlice TString) "marketProjection" true;
    tagged "OrderProjection" TString "orderProjection" true;
    tagged "MatchProjection" TString "matchProjection" true;
    tagged "MaxResults" TInt "maxResults" true;
    tagged "Locale" TString "locale" true ].

Definition EventType : GoType := TStruct "EventType"
  [ field "ID" TString; field "Name" TString ].

Definition EventTypeResult : GoType := TStruct "EventTypeResult"
  [ field "EventType" (TPtr EventType); field "MarketCount" TInt ].

Definition Competition : GoType := TStruct "Competition"
  [ field "Id" TString; field "Name" TString ].

Definition CompetitionResult : GoType := TStruct "CompetitionResult"
  [ field "Competition" (TPtr Competition);
    field "MarketCount" TInt;
    field "CompetitionRegion" TString ].

Definition CountryCodeResult : GoType := TStruct "CountryCodeResult"
  [ field "CountryCode" TString; field "MarketCount" TInt ].

Definition Event : GoType := TStruct "Event"
  [ field "Id" TString;
    field "Name" TString;
    field "CountryCode" TString;
    field "Timezone" TString;
    field "Venue" TString;
    field "OpenDate" TTime ].

Definition EventResult : GoType := TStruct "EventResult"
  [ field "Event" (TPtr Event); field "MarketCount" TInt ].

Definition PriceSize : GoType := TStruct "PriceSize"
  [ tagged "Price" TFloat32 "price" true;
    tagged "Size" TFloat32 "size" true ].

Definition StartingPrices : GoType := TStruct "StartingPrices"
  [ tagged "NearPrice" TFloat32 "nearPrice" true;
    tagged "FarPrice" TFloat32 "farPrice" true;
    tagged "BackStakeTaken" (TSlice PriceSize) "backStakeTaken" true;
    tagged "LayLiabilityTaken" (TSlice PriceSize) "layLiabilityTaken" true;
    tagged "ActualSP" TFloat32 "actualSP" true ].

Definition ExchangePrices : GoType := TStruct "ExchangePrices"
  [ tagged "AvailableToBack" (TSlice PriceSize) "availableToBack" true;
    tagged "AvailableToLay" (TSlice PriceSize) "availableToLay" true;
    tagged "TradedVolume" (TSlice PriceSize) "TradedVolume" true ].

Definition Order : GoType := TStruct "Order"
  [ field "BetId" TString;
    field "OrderType" TString;
    field "Status" TString;
    field "PersistenceType" TString;
    field "Side" TString;
    field "Price" TFloat32;
    field "Size" TFloat32;
    field "BspLiability" TFloat32;
    field "PlacedDate" TTime;
    field "AvgPriceMatched" TFloat32;
    field "SizeMatched" TFloat32;
    field "SizeRemaining" TFloat32;
    field "SizeLapsed" TFloat32;
    field "SizeCancelled" TFloat32;
    field "SizeVoided" TFloat32 ].

Definition Match : GoType := TStruct "Match"
  [ tagged "BetID" TString "betId" true;
    tagged "MatchDate" TTime "matchDate" true;
    tagged "MatchID" TString "matchId" true;
    tagged "Price" TString "price" false;
    tagged "Side" TString "side" false;
    tagged "Size" TFloat32 "size" false ].

Definition Runner : GoType := TStruct "Runner"
  [ tagged "SelectionID" TUint32 "selectionId" true;
    tagged "Handicap" TFloat32 "handicap" true;
    tagged "Status" TString "status" true;
    tagged "AdjustmentFactor" TFloat32 "adjustmentFactor" true;
    tagged "LastPriceTraded" TFloat32 "lastPriceTraded" true;
    tagged "TotalMatched" TFloat32 "totalMatched" true;
    tagged "RemovalDate" TTime "removalDate" true;
    tagged "StartingPrices" StartingPrices "sp" true;
    tagged "ExchangePrices" ExchangePrices "ex" true;
    tagged "Orders" (TSlice Order) "orders" true;
    tagged "Matches" (TSlice Match) "matches" true ].

Definition MarketBook : GoType := TStruct "MarketBook"
  [ field "MarketId" TString;
    field "IsMarketDataDelayed" TBool;
    field "Status" TString;
    field "BetDelay" TInt;
    field "BspReconciled" TBool;
    field "Complete" TBool;
    field "Inplay" TBool;
    field "NumberOfWinners" TInt;
    field "NumberOfRunners" TInt;
    field "NumberOfActiveRunners" TInt;
    field "LastMatchTime" TTime;
    field "TotalMatched" TFloat32;
    field "TotalAvailable" TFloat32;
    field "CrossMatching" TBool;
    field "RunnersVoidable" TBool;
    field "Version" TInt;
    field "Runners" (TSlice Runner) ].

Definition RunnerCatalog : GoType := TStruct "RunnerCatalog"
  [ field "SelectionId" TUint32;
    field "RunnerName" TString;
    field "Handicap" TFloat32;
    field "SortPriority" TInt;
    field "Metadata" TMapStringString ].

Definition MarketDescription : GoType := TStruct "MarketDescription"
  [ field "PersistenceEnabled" TBool;
    field "BspMarket" TBool;
    field "MarketTime" TTime;
    field "SuspendTime" TTime;
    field "SettleTime" TTime;
    field "BettingType" TString;
    field "TurnInPlayEnabled" TBool;
    field "MarketType" TString;
    field "Regulator" TString;
    field "MarketBaseRate" TFloat32;
    field "DiscountAllowed" TBool;
    field "Wallet" TString;
    field "Rules" TString;
    field "RulesHasDate" TBool;
    field "Clarifications" TString ].

Definition MarketCatalogue : GoType := TStruct "MarketCatalogue"
  [ field "MarketId" TString;
    field "MarketName" TString;
    field "MarketStartTime" TTime;
    field "Description" (TPtr MarketDescription);
    field "TotalMatched" TFloat32;
    field "Runners" (TSlice RunnerCatalog);
    field "EventType" (TPtr EventType);
    field "Competition" (TPtr Competition);
    field "Event" (TPtr Event) ].

Definition MarketTypeResult : GoType := TStruct "MarketTypeResult"
  [ field "MarketType" TString; field "MarketCount" TInt ].

End T.

(* ================================================================= *)
(** ** betting.go: the request side, as typed records *)

Definition ptr (A : Type) : Type := option A.
Definition slice (A : Type) : Type := option (list A).

Record MarketFilter : Type := mkMarketFilter {
  TextQuery : string;
  ExchangeIds : slice string;
  EventTypeIds : slice string;
  EventIds : slice string;
  CompetitionIds : slice string;
  MarketCountries : slice string;
  MarketFilter_MarketIds : slice string;
  MarketTypeCodes : slice string
}.

Record PriceProjection : Type := mkPriceProjection {
  PriceData : slice PriceDataVal
}.

Record ProjectionParams : Type := mkProjectionParams {
  ProjectionParams_MarketProjection : slice MarketProjVal;
  ProjectionParams_PriceProjection : ptr PriceProjection;
  ProjectionParams_OrderProjection : OrderProjVal;
  ProjectionParams_MatchProjection : MatchProjVal
}.

Record Params : Type := mkParams {
  Params_MarketFilter : ptr MarketFilter;
  Params_MarketIds : slice string;
  Params_PriceProjection : ptr PriceProjection;
  Params_MarketProjection : slice MarketProjVal;
  Params_OrderProjection : OrderProjVal;
  Params_MatchProjection : MatchProjVal;
  Params_MaxResults : Z;
  Params_Locale : string
}.

(** [new(Params)]. *)
Definition new_Params : Params :=
  mkParams None None None None EmptyString EmptyString 0 EmptyString.

(** The values reflection finds in the records. *)
Definition reflect_strings (s : slice string) : value :=
  match s with
  | None => VNil
  | Some l => VSlice (map VString l)
  end.

Definition reflect_ptr {A} (r : A -> value) (p : ptr A) : value :=
  match p with
  | None => VNil
  | Some a => VPtr (r a)
  end.

Definition reflect_MarketFilter (f : MarketFilter) : value :=
  VStruct [ VString (TextQuery f);
            reflect_strings (ExchangeIds f);
            reflect_strings (EventTypeIds f);
            reflect_strings (EventIds f);
            reflect_strings (CompetitionIds f);
            reflect_strings (MarketCountries f);
            reflect_strings (MarketFilter_MarketIds f);
            reflect_strings (MarketTypeCodes f) ].

Definition reflect_PriceProjection (p : PriceProjection) : value :=
  VStruct [ reflect_strings (PriceData p) ].

Definition reflect_Params (p : Params) : value :=
  VStruct [ reflect_ptr reflect_MarketFilter (Params_MarketFilter p);
            reflect_strings (Params_MarketIds p);
            reflect_ptr reflect_PriceProjection (Params_PriceProjection p);
            reflect_strings (Params_MarketProjection p);
            VString (Params_OrderProjection p);
            VString (Params_MatchProjection p);
            VInt (Params_MaxResults p);
            VString (Params_Locale p) ].

(** Assignments to single fields of a [Params]. *)
Definition set_MarketFilter (x : ptr MarketFilter) (p : Params) : Params :=
  mkParams x (Params_MarketIds p) (Params_PriceProjection p)
           (Params_MarketProjection p) (Params_OrderProjection p)
           (Params_MatchProjection p) (Params_MaxResults p) (Params_Locale p).

Definition set_MarketIds (x : slice string) (p : Params) : Params :=
  mkParams (Params_MarketFilter p) x (Params_PriceProjection p)
           (Params_MarketProjection p) (Params_OrderProjection p)
           (Params_MatchProjection p) (Params_MaxResults p) (Params_Locale p).

Definition set_PriceProjection (x : ptr PriceProjection) (p : Params) : Params :=
  mkParams (Params_MarketFilter p) (Params_MarketIds p) x
           (Params_MarketProjection p) (Params_OrderProjection p)
           (Params_MatchProjection p) (Params_MaxResults p) (Params_Locale p).

Definition set_MarketProjection (x : slice MarketProjVal) (p : Params) : Params :=
  mkParams (Params_MarketFilter p) (Params_MarketIds p) (Params_PriceProjection p)
           x (Params_OrderProjection p)
           (Params_MatchProjection p) (Params_MaxResults p) (Params_Locale p).

Definition set_OrderProjection (x : OrderProjVal) (p : Params) : Params :=
  mkParams (Params_MarketFilter p) (Params_MarketIds p) (Params_PriceProjection p)
           (Params_MarketProjection p) x
           (Params_MatchProjection p) (Params_MaxResults p) (Params_Locale p).

Definition set_MatchProjection (x : MatchProjVal) (p : Params) : Params :=
  mkParams (Params_MarketFilter p) (Params_MarketIds p) (Params_PriceProjection p)
           (Params_MarketProjection p) (Params_OrderProjection p)
           x (Params_MaxResults p) (Params_Locale p).

Definition set_MaxResults (x : Z) (p : Params) : Params :=
  mkParams (Params_MarketFilter p) (Params_MarketIds p) (Params_PriceProjection p)
           (Params_MarketProjection p) (Params_OrderProjection p)
           (Params_MatchProjection p) x (Params_Locale p).

Definition set_Locale (x : string) (p : Params) : Params :=
  mkParams (Params_MarketFilter p) (Params_MarketIds p) (Params_PriceProjection p)
           (Params_MarketProjection p) (Params_OrderProjection p)
           (Params_MatchProjection p) (Params_MaxResults p) x.

(** A call either returns or panics (here: on a nil pointer). *)
Inductive outcome (A : Type) : Type :=
| Returns (a : A)
| Panics.
Arguments Returns {A} a.
Arguments Panics {A}.

#[global] Instance outcome_ret : MRet outcome := fun A a => Returns a.
#[global] Instance outcome_bind : MBind outcome := fun A B k o =>
  match o with
  | Returns a => k a
  | Panics => Panics
  end.

(** [func (p *Params) SetProjections(params *ProjectionParams)]: the
    receiver after the call.  Reading through a nil [params] panics. *)
Definition SetProjections (p : Params) (params : ptr ProjectionParams) : outcome Params :=
  match params with
  | None => Panics
  | Some params =>
      let p := set_PriceProjection (ProjectionParams_PriceProjection params) p in
      let p := set_MarketProjection (ProjectionParams_MarketProjection params) p in
      let p := set_OrderProjection (ProjectionParams_OrderProjection params) p in
      let p := set_MatchProjection (ProjectionParams_MatchProjection params) p in
      Returns p
  end.

(** Modelled from the spec: the [Session] type and its configuration are
    declared in another file of the package; [betting.go] reads
    [s.config.Locale] and passes the session on to [doRequest]. *)
Record Config : Type := mkConfig {
  Locale : string
}.

Record Session : Type := mkSession {
  config : Config
}.

Section Betting.
Context {L : GoLibrary}.

(** [doRequest(s, api, method, body)], the HTTP call of the package,
    declared in another file: what it is given and what it answers. *)
Variable doRequest : Session -> string -> string -> json -> result document.

(** [doBettingRequest(s, method, params, v)].  The result is what [v]
    points to after the call, and the error.  The assignment to
    [params.Locale] is to the envelope the caller has just allocated. *)
Definition doBettingRequest (s : Session) (method : string) (params : Params)
    (t : GoType) (v : value) : value * option error :=
  let params := set_Locale (Locale (config s)) params in
  match Marshal T.Params (reflect_Params params) with
  | Err err => (v, Some err)
  | Ok bytes =>
      let body := bytes in
      match doRequest s "betting" (method ++ "/")%string body with
      | Err err => (v, Some err)
      | Ok data =>
          match Unmarshal data t v with
          | (v, Some err) => (v, Some err)
          | (v, None) => (v, None)
          end
      end
  end.

Definition ListCompetitions (s : Session) (filter : ptr MarketFilter)
  : value * option error :=
  let results := VNil in
  let params := new_Params in
  let params := set_MarketFilter filter params in
  let (results, err) :=
    doBettingRequest s "listCompetitions" params (TSlice T.CompetitionResult) results in
  (results, err).

Definition ListCountries (s : Session) (filter : ptr MarketFilter)
  : value * option error :=
  let results := VNil in
  let params := new_Params in
  let params := set_MarketFilter filter params in
  let (results, err) :=
    doBettingRequest s "listCountries" params (TSlice T.CountryCodeResult) results in
  (results, err).

Definition ListEvents (s : Session) (filter : ptr MarketFilter)
  : value * option error :=
  let results := VNil in
  let params := new_Params in
  let params := set_MarketFilter filter params in
  let (results, err) :=
    doBettingRequest s "listEvents" params (TSlice T.EventResult) results in
  (results, err).

Definition ListEventTypes (s : Session) (filter : ptr MarketFilter)
  : value * option error :=
  let results := VNil in
  let params := new_Params in
  let params := set_MarketFilter filter params in
  let (results, err) :=
    doBettingRequest s "listEventTypes" params (TSlice T.EventTypeResult) results in
  (results, err).

Definition ListMarketBook (s : Session) (marketIds : slice string)
    (projectionsParam : ptr ProjectionParams) : outcome (value * option error) :=
  let results := VNil in
  let params := new_Params in
  let params := set_MarketIds marketIds params in
  params ← SetProjections params projectionsParam;
  let (results, err) :=
    doBettingRequest s "listMarketBook" params (TSlice T.MarketBook) results in
  Returns (results, err).

Definition ListMarketCatalogue (s : Session) (filter : ptr MarketFilter)
    (maxResults : Z) (projectionsParam : ptr ProjectionParams)
  : outcome (value * option error) :=
  let results := VNil in
  let params := new_Params in
  let params := set_MarketFilter filter params in
  let params := set_MaxResults maxResults params in
  params ← SetProjections params projectionsParam;
  let (results, err) :=
    doBettingRequest s "listMarketCatalogue" params (TSlice T.MarketCatalogue) results in
  Returns (results, err).

Definition ListMarketTypes (s : Session) (filter : ptr MarketFilter)
  : value * option error :=
  let results := VNil in
  let params := new_Params in
  let params := set_MarketFilter filter params in
  let (results, err) :=
    doBettingRequest s "listMarketTypes" params (TSlice T.MarketTypeResult) results in
  (results, err).

End Betting.

(* ================================================================= *)
(** ** The earlier revision of betting.go

    The projections of orders and matches are slices there, the price
    data are plain strings, a [Runner] is a selection id only and
    [ListMarketBook] takes no projections.  Embedded here are the
    envelope, the helper and the five operations that take a filter
    alone, with the result structs they decode into.  [MarketFilter] is
    declared word for word as in the current revision, and the record
    above serves both. *)

Module Old.

Definition baseProjectionVal : Type := string.
Definition OrderProjVal : Type := baseProjectionVal.
Definition MarketProjVal : Type := baseProjectionVal.
Definition MatchProjVal : Type := baseProjectionVal.

Module T.

Definition MarketFilter : GoType := TStruct "MarketFilter"
  [ tagged "TextQuery" TString "textQuery" true;
    tagged "ExchangeIds" (TSlice TString) "exchangeIds" true;
    tagged "EventTypeIds" (TSlice TString) "eventTypeIds" true;
    tagged "EventIds" (TSlice TString) "eventIds" true;
    tagged "CompetitionIds" (TSlice TString) "competitionIds" true;
    tagged "MarketCountries" (TSlice TString) "marketCountries" true;
    tagged "MarketIds" (TSlice TString) "marketIds" true;
    tagged "MarketTypeCodes" (TSlice TString) "marketTypeCodes" true ].

Definition PriceProjection : GoType := TStruct "PriceProjection"
  [ tagged "PriceData" (TSlice TString) "priceData" true ].

Definition Params : GoType := TStruct "Params"
  [ tagged "MarketFilter" (TPtr MarketFilter) "filter" true;
    tagged "MarketIds" (TSlice TString) "marketIds" true;
    tagged "PriceProjection" (TPtr PriceProjection) "priceProjection" true;
    tagged "MarketProjection" (TSlice TString) "marketProjection" true;
    tagged "OrderProjection" (TSlice TString) "orderProjection" true;
    tagged "MatchProjection" (TSlice TString) "matchProjection" true;
    tagged "MaxResults" TInt "maxResults" true;
    tagged "Locale" TString "locale" true ].

Definition EventType : GoType := TStruct "EventType"
  [ field "ID" TString; field "Name" TString ].

Definition EventTypeResult : GoType := TStruct "EventTypeResult"
  [ field "EventType" (TPtr EventType); field "MarketCount" TInt ].

Definition Competition : GoType := TStruct "Competition"
  [ field "Id" TString; field "Name" TString ].

Definition CompetitionResult : GoType := TStruct "CompetitionResult"
  [ field "Competition" (TPtr Competition);
    field "MarketCount" TInt;
    field "CompetitionRegion" TString ].

Definition CountryCodeResult : GoType := TStruct "CountryCodeResult"
  [ field "CountryCode" TString; field "MarketCount" TInt ].

Definition Event : GoType := TStruct "Event"
  [ field "Id" TString;
    field "Name" TString;
    field "CountryCode" TString;
    field "Timezone" TString;
    field "Venue" TString;
    field "OpenDate" TTime ].

Definition EventResult : GoType := TStruct "EventResult"
  [ field "Event" (TPtr Event); field "MarketCount" TInt ].

Definition MarketTypeResult : GoType := TStruct "MarketTypeResult"
  [ field "MarketType" TString; field "MarketCount" TInt ].

Definition Runner : GoType := TStruct "Runner"
  [ field "SelectionId" TInt ].

Definition MarketBook : GoType := TStruct "MarketBook"
  [ field "MarketId" TString;
    field "IsMarketDataDelayed" TBool;
    field "Status" TString;
    field "BetDelay" TInt;
    field "BspReconciled" TBool;
    field "Complete" TBool;
    field "Inplay" TBool;
    field "NumberOfWinners" TInt;
    field "NumberOfRunners" TInt;
    field "NumberOfActiveRunners" TInt;
    field "LastMatchTime" TTime;
    field "TotalMatched" TFloat32;
    field "TotalAvailable" TFloat32;
    field "CrossMatching" TBool;
    field "RunnersVoidable" TBool;
    field "Version" TInt;
    field "Runners" (TSlice Runner) ].

Definition RunnerCatalog : GoType := TStruct "RunnerCatalog"
  [ field "SelectionId" TUint32;
    field "RunnerName" TString;
    field "Handicap" TFloat32;
    field "SortPriority" TInt;
    field "Metadata" TMapStringString ].

Definition MarketDescription : GoType := TStruct "MarketDescription"
  [ field "PersistenceEnabled" TBool;
    field "BspMarket" TBool;
    field "MarketTime" TTime;
    field "SuspendTime" TTime;
    field "SettleTime" TTime;
    field "BettingType" TString;
    field "TurnInPlayEnabled" TBool;
    field "MarketType" TString;
    field "Regulator" TString;
    field "MarketBaseRate" TFloat32;
    field "DiscountAllowed" TBool;
    field "Wallet" TString;
    field "Rules" TString;
    field "RulesHasDate" TBool;
    field "Clarifications" TString ].

Definition MarketCatalogue : GoType := TStruct "MarketCatalogue"
  [ field "MarketId" TString;
    field "MarketName" TString;
    field "MarketStartTime" TTime;
    field "Description" (TPtr MarketDescription);
    field "TotalMatched" TFloat32;
    field "Runners" (TSlice RunnerCatalog);
    field "EventType" (TPtr EventType);
    field "Competition" (TPtr Competition);
    field "Event" (TPtr Event) ].

End T.

Record PriceProjection : Type := mkPriceProjection {
  PriceData : slice string
}.

Record Params : Type := mkParams {
  Params_MarketFilter : ptr MarketFilter;
  Params_MarketIds : slice string;
  Params_PriceProjection : ptr PriceProjection;
  Params_MarketProjection : slice MarketProjVal;
  Params_OrderProjection : slice OrderProjVal;
  Params_MatchProjection : slice MatchProjVal;
  Params_MaxResults : Z;
  Params_Locale : string
}.

Definition new_Params : Params :=
  mkParams None None None None None None 0 EmptyString.

Definition reflect_PriceProjection (p : PriceProjection) : value :=
  VStruct [ reflect_strings (PriceData p) ].

Definition reflect_Params (p : Params) : value :=
  VStruct [ reflect_ptr reflect_MarketFilter (Params_MarketFilter p);
            reflect_strings (Params_MarketIds p);
            reflect_ptr reflect_PriceProjection (Params_PriceProjection p);
            reflect_strings (Params_MarketProjection p);
            reflect_strings (Params_OrderProjection p);
            reflect_strings (Params_MatchProjection p);
            VInt (Params_MaxResults p);
            VString (Params_Locale p) ].

Definition set_MarketFilter (x : ptr MarketFilter) (p : Params) : Params :=
  mkParams x (Params_MarketIds p) (Params_PriceProjection p)
           (Params_MarketProjection p) (Params_OrderProjection p)
           (Params_MatchProjection p) (Params_MaxResults p) (Params_Locale p).

Definition set_Locale (x : string) (p : Params) : Params :=
  mkParams (Params_MarketFilter p) (Params_MarketIds p) (Params_PriceProjection p)
           (Params_MarketProjection p) (Params_OrderProjection p)
           (Params_MatchProjection p) (Params_MaxResults p) x.

Record ProjectionParams : Type := mkProjectionParams {
  ProjectionParams_MarketProjection : slice MarketProjVal;
  ProjectionParams_PriceProjection : ptr PriceProjection;
  ProjectionParams_OrderProjection : slice OrderProjVal;
  ProjectionParams_MatchProjection : slice MatchProjVal
}.

Definition set_MarketIds (x : slice string) (p : Params) : Params :=
  mkParams (Params_MarketFilter p) x (Params_PriceProjection p)
           (Params_MarketProjection p) (Params_OrderProjection p)
           (Params_MatchProjection p) (Params_MaxResults p) (Params_Locale p).

Definition set_PriceProjection (x : ptr PriceProjection) (p : Params) : Params :=
  mkParams (Params_MarketFilter p) (Params_MarketIds p) x
           (Params_MarketProjection p) (Params_OrderProjection p)
           (Params_MatchProjection p) (Params_MaxResults p) (Params_Locale p).

Definition set_MarketProjection (x : slice MarketProjVal) (p : Params) : Params :=
  mkParams (Params_MarketFilter p) (Params_MarketIds p) (Params_PriceProjection p)
           x (Params_OrderProjection p)
           (Params_MatchProjection p) (Params_MaxResults p) (Params_Locale p).

Definition set_OrderProjection (x : slice OrderProjVal) (p : Params) : Params :=
  mkParams (Params_MarketFilter p) (Params_MarketIds p) (Params_PriceProjection p)
           (Params_MarketProjection p) x
           (Params_MatchProjection p) (Params_MaxResults p) (Params_Locale p).

Definition set_MatchProjection (x : slice MatchProjVal) (p : Params) : Params :=
  mkParams (Params_MarketFilter p) (Params_MarketIds p) (Params_PriceProjection p)
           (Params_MarketProjection p) (Params_OrderProjection p)
           x (Params_MaxResults p) (Params_Locale p).

Definition set_MaxResults (x : Z) (p : Params) : Params :=
  mkParams (Params_MarketFilter p) (Params_MarketIds p) (Params_PriceProjection p)
           (Params_MarketProjection p) (Params_OrderProjection p)
           (Params_MatchProjection p) x (Params_Locale p).

(** [SetProjections] of the earlier revision: the same four
    assignments. *)
Definition SetProjections (p : Params) (params : ptr ProjectionParams) : outcome Params :=
  match params with
  | None => Panics
  | Some params =>
      let p := set_PriceProjection (ProjectionParams_PriceProjection params) p in
      let p := set_MarketProjection (ProjectionParams_MarketProjection params) p in
      let p := set_OrderProjection (ProjectionParams_OrderProjection params) p in
      let p := set_MatchProjection (ProjectionParams_MatchProjection params) p in
      Returns p
  end.

Section Betting.
Context {L : GoLibrary}.
Variable doRequest : Session -> string -> string -> json -> result document.

Definition doBettingRequest (s : Session) (method : string) (params : Params)
    (t : GoType) (v : value) : value * option error :=
  let params := set_Locale (Locale (config s)) params in
  match Marshal T.Params (reflect_Params params) with
  | Err err => (v, Some err)
  | Ok bytes =>
      let body := bytes in
      match doRequest s "betting" (method ++ "/")%string body with
      | Err err => (v, Some err)
      | Ok data =>
          match Unmarshal data t v with
          | (v, Some err) => (v, Some err)
          | (v, None) => (v, None)
          end
      end
  end.

Definition ListCompetitions (s : Session) (filter : ptr MarketFilter)
  : value * option error :=
  let results := VNil in
  let params := new_Params in
  let params := set_MarketFilter filter params in
  let (results, err) :=
    doBettingRequest s "listCompetitions" params (TSlice T.CompetitionResult) results in
  (results, err).

Definition ListCountries (s : Session) (filter : ptr MarketFilter)
  : value * option error :=
  let results := VNil in
  let params := new_Params in
  let params := set_MarketFilter filter params in
  let (results, err) :=
    doBettingRequest s "listCountries" params (TSlice T.CountryCodeResult) results in
  (results, err).

Definition ListEvents (s : Session) (filter : ptr MarketFilter)
  : value * option error :=
  let results := VNil in
  let params := new_Params in
  let params := set_MarketFilter filter params in
  let (results, err) :=
    doBettingRequest s "listEvents" params (TSlice T.EventResult) results in
  (results, err).

Definition ListEventTypes (s : Session) (filter : ptr MarketFilter)
  : value * option error :=
  let results := VNil in
  let params := new_Params in
  let params := set_MarketFilter filter params in
  let (results, err) :=
    doBettingRequest s "listEventTypes" params (TSlice T.EventTypeResult) results in
  (results, err).

Definition ListMarketTypes (s : Session) (filter : ptr MarketFilter)
  : value * option error :=
  let results := VNil in
  let params := new_Params in
  let params := set_MarketFilter filter params in
  let (results, err) :=
    doBettingRequest s "listMarketTypes" params (TSlice T.MarketTypeResult) results in
  (results, err).

(** [ListMarketBook] of the earlier revision takes the market ids
    alone. *)
Definition ListMarketBook (s : Session) (marketIds : slice string)
  : value * option error :=
  let results := VNil in
  let params := new_Params in
  let params := set_MarketIds marketIds params in
  let (results, err) :=
    doBettingRequest s "listMarketBook" params (TSlice T.MarketBook) results in
  (results, err).

Definition ListMarketCatalogue (s : Session) (filter : ptr MarketFilter)
    (maxResults : Z) (projectionsParam : ptr ProjectionParams)
  : outcome (value * option error) :=
  let results := VNil in
  let params := new_Params in
  let params := set_MarketFilter filter params in
  let params := set_MaxResults maxResults params in
  params ← SetProjections params projectionsParam;
  let (results, err) :=
    doBettingRequest s "listMarketCatalogue" params (TSlice T.MarketCatalogue) results in
  Returns (results, err).

End Betting.

End Old.

(* ================================================================= *)
(** ** Named parts of the encoder and the decoder

    The loops that [encode] and [decode] run over elements, fields and
    members, as functions of their own; the unfolding lemmas below show
    that they are the loops of the definitions above. *)

Section Loops.
Context {L : GoLibrary}.

Definition encodeElems (te : GoType) : list value -> result (list json) :=
  fix elems (l : list value) : result (list json) :=
    match l with
    | [] => Ok []
    | x :: l' =>
        j ← encode x te;
        js ← elems l';
        Ok (j :: js)
    end.

Fixpoint encodeFields (vs : list value) (fs : list Field)
  : result (list (string * json)) :=
  match vs, fs with
  | x :: vs', f :: fs' =>
      if fieldOmitEmpty f && isEmptyValue x then encodeFields vs' fs'
      else
        j ← encode x f.2;
        ms ← encodeFields vs' fs';
        Ok ((fieldKey f, j) :: ms)
  | [], [] => Ok []
  | _, _ => Err UnsupportedTypeError
  end.

Definition decodeElems (te : GoType) : list json -> list value -> list value * status :=
  fix elems (l : list json) (olds : list value) : list value * status :=
    match l with
    | [] => ([], Good)
    | x :: l' =>
        let (v, st) := decode x te (hd (zero te) olds) in
        match st with
        | Abort e => (v :: tl olds, Abort e)
        | _ =>
            let (vs, st') := elems l' (tl olds) in
            (v :: vs, andThen st st')
        end
    end.

Definition decodeMembers (fs : list Field)
  : list (string * json) -> list value -> list value * status :=
  fix members (ms : list (string * json)) (vs : list value) : list value * status :=
    match ms with
    | [] => (vs, Good)
    | (k, x) :: ms' =>
        match findField fs k with
        | None => members ms' vs
        | Some i =>
            let ft := nth i (map fieldType fs) TBool in
            let (v, st) := decode x ft (nth i vs (zero ft)) in
            let vs1 := <[i := v]> vs in
            match st with
            | Abort e => (vs1, Abort e)
            | _ =>
                let (vs2, st') := members ms' vs1 in
                (vs2, andThen st st')
            end
        end
    end.

Fixpoint decodeEntries (ms : list (string * json)) (m : gmap string string)
  : gmap string string * status :=
  match ms with
  | [] => (m, Good)
  | (k, x) :: ms' =>
      let (v, st) := decode x TString (VString EmptyString) in
      let m1 := <[k := stringOf v]> m in
      match st with
      | Abort e => (m1, Abort e)
      | _ =>
          let (m2, st') := decodeEntries ms' m1 in
          (m2, andThen st st')
      end
  end.

End Loops.

(* ================================================================= *)
(** ** The wire form of an envelope, written out

    What the specification calls the payload: the members a [Params]
    is sent with, in the order of the declaration, a member being present
    when its field is not empty. *)

Definition member_if (present : bool) (k : string) (j : json) : list (string * json) :=
  if present then [(k, j)] else [].

Definition nonempty {A} (s : slice A) : bool :=
  match s with
  | Some (_ :: _) => true
  | _ => false
  end.

Definition isSet {A} (p : ptr A) : bool :=
  match p with
  | Some _ => true
  | None => false
  end.

Definition nonblank (s : string) : bool := negb (String.eqb s EmptyString).

Definition wire_strings (s : slice string) : json :=
  match s with
  | None => JNull
  | Some l => JArray (map (fun x => JString (toValidUTF8 x)) l)
  end.

Definition wire_ptr {A} (w : A -> json) (p : ptr A) : json :=
  match p with
  | None => JNull
  | Some a => w a
  end.

Definition wire_MarketFilter (f : MarketFilter) : json :=
  JObject
    (member_if (nonblank (TextQuery f)) "textQuery" (JString (toValidUTF8 (TextQuery f)))
     ++ member_if (nonempty (ExchangeIds f)) "exchangeIds" (wire_strings (ExchangeIds f))
     ++ member_if (nonempty (EventTypeIds f)) "eventTypeIds" (wire_strings (EventTypeIds f))
     ++ member_if (nonempty (EventIds f)) "eventIds" (wire_strings (EventIds f))
     ++ member_if (nonempty (CompetitionIds f)) "competitionIds" (wire_strings (CompetitionIds f))
     ++ member_if (nonempty (MarketCountries f)) "marketCountries" (wire_strings (MarketCountries f))
     ++ member_if (nonempty (MarketFilter_MarketIds f)) "marketIds"
          (wire_strings (MarketFilter_MarketIds f))
     ++ member_if (nonempty (MarketTypeCodes f)) "marketTypeCodes"
          (wire_strings (MarketTypeCodes f))).

Definition wire_PriceProjection (p : PriceProjection) : json :=
  JObject (member_if (nonempty (PriceData p)) "priceData" (wire_strings (PriceData p))).

Definition wire_Params (p : Params) : json :=
  JObject
    (member_if (isSet (Params_MarketFilter p)) "filter"
       (wire_ptr wire_MarketFilter (Params_MarketFilter p))
     ++ member_if (nonempty (Params_MarketIds p)) "marketIds"
          (wire_strings (Params_MarketIds p))
     ++ member_if (isSet (Params_PriceProjection p)) "priceProjection"
          (wire_ptr wire_PriceProjection (Params_PriceProjection p))
     ++ member_if (nonempty (Params_MarketProjection p)) "marketProjection"
          (wire_strings (Params_MarketProjection p))
     ++ member_if (nonblank (Params_OrderProjection p)) "orderProjection"
          (JString (toValidUTF8 (Params_OrderProjection p)))
     ++ member_if (nonblank (Params_MatchProjection p)) "matchProjection"
          (JString (toValidUTF8 (Params_MatchProjection p)))
     ++ member_if (negb (Params_MaxResults p =? 0)) "maxResults"
          (JNumber (formatInt (Params_MaxResults p)))
     ++ member_if (nonblank (Params_Locale p)) "locale"
          (JString (toValidUTF8 (Params_Locale p)))).

(** The wire names of the fields of [p] that are set, in order. *)
Definition setFieldNames (p : Params) : list string :=
  (if isSet (Params_MarketFilter p) then ["filter"] else [])
  ++ (if nonempty (Params_MarketIds p) then ["marketIds"] else [])
  ++ (if isSet (Params_PriceProjection p) then ["priceProjection"] else [])
  ++ (if nonempty (Params_MarketProjection p) then ["marketProjection"] else [])
  ++ (if nonblank (Params_OrderProjection p) then ["orderProjection"] else [])
  ++ (if nonblank (Params_MatchProjection p) then ["matchProjection"] else [])
  ++ (if negb (Params_MaxResults p =? 0) then ["maxResults"] else [])
  ++ (if nonblank (Params_Locale p) then ["locale"] else []).

Definition wireNames : list string :=
  [ "filter"; "marketIds"; "priceProjection"; "marketProjection";
    "orderProjection"; "matchProjection"; "maxResults"; "locale" ].

(* ================================================================= *)
(** ** A library for evaluating examples

    It knows the literals of 0, -0 and 1.5 and the texts of two times,
    and folds the ASCII letters.  The examples use no other float and no
    other time. *)

Fixpoint asciiUpper (s : string) : string :=
  match s with
  | EmptyString => EmptyString
  | String c r =>
      String (if between 97 122 c then ascii_of_N (byteval c - 32) else c) (asciiUpper r)
  end.

Definition exampleLibrary : GoLibrary := {|
  formatFloat32 f :=
    match f with
    | S754_zero true => "-0"
    | S754_finite false 12582912 (-23) => "1.5"
    | _ => "0"
    end;
  parseFloat32 s :=
    if String.eqb s "0" then Some (S754_zero false)
    else if String.eqb s "-0" then Some (S754_zero true)
    else if String.eqb s "1.5" then Some (S754_finite false 12582912 (-23))
    else None;
  parseTime s :=
    if String.eqb s "0001-01-01T00:00:00Z" then Some Time_zero
    else if String.eqb s "2014-06-12T20:00:00Z"
    then Some (mkTime 2014 6 12 20 0 0 0 0 UTC None)
    else None;
  foldName := asciiUpper
|}.

(* ================================================================= *)
(** ** Values that survive the trip through JSON *)

#[global] Instance spec_float_eq_dec : EqDecision spec_float.
Proof. solve_decision. Defined.

#[global] Instance Location_eq_dec : EqDecision Location.
Proof. solve_decision. Defined.

#[global] Instance Time_eq_dec : EqDecision Time.
Proof. solve_decision. Defined.

(** Types that [null] stands for the zero value of. *)
Definition nullable (t : GoType) : bool :=
  match t with
  | TPtr _ | TSlice _ | TMapStringString => true
  | _ => false
  end.

(** No two fields of a struct share a member name, at any depth. *)
Fixpoint wf_type (t : GoType) : bool :=
  match t with
  | TPtr te | TSlice te => wf_type te
  | TStruct _ fs =>
      bool_decide (NoDup (map fieldKey fs)) &&
      (fix all (fs : list Field) : bool :=
         match fs with
         | [] => true
         | f :: fs' => wf_type f.2 && all fs'
         end) fs
  | _ => true
  end.

(** The zero value proper, as opposed to a value that is merely empty:
    the empty slice, the empty map and the negative zero are empty
    without being the zero value. *)
Definition isZeroValue (v : value) : bool :=
  match v with
  | VBool b => negb b
  | VInt n | VUint32 n => n =? 0
  | VFloat32 f => bool_decide (f = float32_zero)
  | VString s => String.eqb s EmptyString
  | VNil => true
  | _ => false
  end.

Section Survives.
Context {L : GoLibrary}.

(** A float that is printed and read back as itself. *)
Definition survivesFloat (f : float32) : bool :=
  negb (float32_isInfOrNaN f) &&
  bool_decide (parseFloat32 (formatFloat32 f) = Some f).

(** A time that is written and read back as itself. *)
Definition survivesTime (tm : Time) : bool :=
  match Time_MarshalJSON tm with
  | Ok s => bool_decide (parseTime s = Some tm)
  | Err _ => false
  end.

Definition survivesEntries (m : gmap string string) : bool :=
  forallb (fun kv => validUTF8 kv.1 && validUTF8 kv.2) (map_to_list m).

(** Every leaf of [v] survives its own encoding, a pointer points to
    something that is not written as [null], and a field left out for
    being empty holds its zero value. *)
Fixpoint survives (v : value) (t : GoType) {struct v} : bool :=
  match v, t with
  | VFloat32 f, TFloat32 => survivesFloat f
  | VString s, TString => validUTF8 s
  | VTime tm, TTime => survivesTime tm
  | VPtr p, TPtr te => negb (nullable te) && survives p te
  | VSlice l, TSlice te =>
      (fix all (l : list value) : bool :=
         match l with
         | [] => true
         | x :: l' => survives x te && all l'
         end) l
  | VMap m, TMapStringString => survivesEntries m
  | VStruct vs, TStruct _ fs =>
      (fix all (vs : list value) (fs : list Field) : bool :=
         match vs, fs with
         | x :: vs', f :: fs' =>
             survives x f.2 &&
             (if fieldOmitEmpty f && isEmptyValue x then isZeroValue x else true) &&
             all vs' fs'
         | _, _ => true
         end) vs fs
  | _, _ => true
  end.

End Survives.

(* ================================================================= *)
(** ** The public operations, enumerated *)

Inductive Operation : Type :=
| OpListCompetitions (filter : ptr MarketFilter)
| OpListCountries (filter : ptr MarketFilter)
| OpListEvents (filter : ptr MarketFilter)
| OpListEventTypes (filter : ptr MarketFilter)
| OpListMarketBook (marketIds : slice string) (projectionsParam : ptr ProjectionParams)
| OpListMarketCatalogue (filter : ptr MarketFilter) (maxResults : Z)
    (projectionsParam : ptr ProjectionParams)
| OpListMarketTypes (filter : ptr MarketFilter).

Definition methodName (op : Operation) : string :=
  match op with
  | OpListCompetitions _ => "listCompetitions"
  | OpListCountries _ => "listCountries"
  | OpListEvents _ => "listEvents"
  | OpListEventTypes _ => "listEventTypes"
  | OpListMarketBook _ _ => "listMarketBook"
  | OpListMarketCatalogue _ _ _ => "listMarketCatalogue"
  | OpListMarketTypes _ => "listMarketTypes"
  end.

Definition resultType (op : Operation) : GoType :=
  match op with
  | OpListCompetitions _ => T.CompetitionResult
  | OpListCountries _ => T.CountryCodeResult
  | OpListEvents _ => T.EventResult
  | OpListEventTypes _ => T.EventTypeResult
  | OpListMarketBook _ _ => T.MarketBook
  | OpListMarketCatalogue _ _ _ => T.MarketCatalogue
  | OpListMarketTypes _ => T.MarketTypeResult
  end.



Definition call {L : GoLibrary}
    (doRequest : Session -> string -> string -> json -> result document)
    (s : Session) (op : Operation) : outcome (value * option error) :=
  match op with
  | OpListCompetitions filter => Returns (ListCompetitions doRequest s filter)
  | OpListCountries filter => Returns (ListCountries doRequest s filter)
  | OpListEvents filter => Returns (ListEvents doRequest s filter)
  | OpListEventTypes filter => Returns (ListEventTypes doRequest s filter)
  | OpListMarketBook marketIds pp => ListMarketBook doRequest s marketIds pp
  | OpListMarketCatalogue filter maxResults pp =>
      ListMarketCatalogue doRequest s filter maxResults pp
  | OpListMarketTypes filter => Returns (ListMarketTypes doRequest s filter)
  end.

(** The envelope the specification ascribes to each operation: only the
    fields of its own parameters, every other field at its zero value.
    There is none when the projections are read through a nil pointer. *)
Definition envelope (op : Operation) : outcome Params :=
  match op with
  | OpListCompetitions filter | OpListCountries filter | OpListEvents filter
  | OpListEventTypes filter | OpListMarketTypes filter =>
      Returns (mkParams filter None None None EmptyString EmptyString 0 EmptyString)
  | OpListMarketBook marketIds (Some pp) =>
      Returns (mkParams None marketIds
                 (ProjectionParams_PriceProjection pp)
                 (ProjectionParams_MarketProjection pp)
                 (ProjectionParams_OrderProjection pp)
                 (ProjectionParams_MatchProjection pp) 0 EmptyString)
  | OpListMarketCatalogue filter maxResults (Some pp) =>
      Returns (mkParams filter None
                 (ProjectionParams_PriceProjection pp)
                 (ProjectionParams_MarketProjection pp)
                 (ProjectionParams_OrderProjection pp)
                 (ProjectionParams_MatchProjection pp) maxResults EmptyString)
  | OpListMarketBook _ None | OpListMarketCatalogue _ _ None => Panics
  end.

(** The result types of the package. *)
Definition resultTypes : list GoType :=
  [ T.EventTypeResult; T.CompetitionResult; T.CountryCodeResult; T.EventResult;
    T.MarketBook; T.MarketCatalogue; T.MarketTypeResult ].

(** The structs with tagged, optional fields. *)
Definition taggedStructs : list GoType :=
  [ T.Params; T.MarketFilter; T.PriceProjection; T.Runner; T.Match ].

(** A field that is left out when it holds its zero value: it is tagged
    [omitempty] and its type is not a struct. *)
Definition omittable (f : Field) : bool :=
  fieldOmitEmpty f &&
  match fieldType f with
  | TStruct _ _ | TTime => false
  | _ => true
  end.

Definition structFields (t : GoType) : list Field :=
  match t with
  | TStruct _ fs => fs
  | _ => []
  end.

(** One exchange with the service as the specification describes it: the
    payload goes to the method of the betting API, a transport error is
    handed back with the results untouched, an answer is decoded into
    them. *)
Definition exchange {L : GoLibrary}
    (doRequest : Session -> string -> string -> json -> result document)
    (s : Session) (method : string) (payload : json) (t : GoType)
  : value * option error :=
  match doRequest s "betting" (method ++ "/")%string payload with
  | Err e => (VNil, Some e)
  | Ok data => Unmarshal data t VNil
  end.

(** A field survives when its value does and, if it is left out for
    being empty, it holds the zero value. *)
Definition fieldSurvives {L : GoLibrary} (x : value) (f : Field) : Prop :=
  survives x f.2 = true /\
  (fieldOmitEmpty f && isEmptyValue x = true -> isZeroValue x = true).

(** [v] comes back: at every type it is a surviving value of, it is
    encoded, and decoding the document into a zero value gives [v]. *)
Definition comesBack {L : GoLibrary} (v : value) : Prop :=
  forall t, wf_type t = true -> has_type v t = true -> survives v t = true ->
    exists j, encode v t = Ok j /\ decode j t (zero t) = (v, Good).

(** [m[k] = v]. *)
Definition put (m : gmap string string) (kv : string * string) : gmap string string :=
  <[kv.1 := kv.2]> m.

(* ================================================================= *)
(** ** Concrete values for the examples *)

(** A country code that is not valid UTF-8: the single byte [0xFF]. *)
Definition badCountry : value :=
  VStruct [ VString (String (ascii_of_N 255) EmptyString); VInt 11 ].

(** A market book with one runner, one price on offer and one match. *)
Definition sampleBook : value :=
  VStruct
    [ VString "1.115258476"; VBool false; VString "OPEN"; VInt 0;
      VBool false; VBool true; VBool false; VInt 1; VInt 2; VInt 2;
      VTime (mkTime 2014 6 12 20 0 0 0 0 UTC None);
      VFloat32 (S754_finite false 12582912 (-23)); VFloat32 float32_zero;
      VBool true; VBool false; VInt 843459356;
      VSlice
        [ VStruct
            [ VUint32 47972; VFloat32 float32_zero; VString RunnerStatusActive;
              VFloat32 float32_zero; VFloat32 (S754_finite false 12582912 (-23));
              VFloat32 float32_zero; VTime Time_zero;
              VStruct [ VFloat32 float32_zero; VFloat32 float32_zero; VNil; VNil;
                        VFloat32 float32_zero ];
              VStruct
                [ VSlice [ VStruct [ VFloat32 (S754_finite false 12582912 (-23));
                                     VFloat32 float32_zero ] ];
                  VNil; VNil ];
              VNil;
              VSlice
                [ VStruct [ VString "42"; VTime Time_zero; VString EmptyString;
                            VString "1.5"; VString SideBack;
                            VFloat32 float32_zero ] ] ] ] ].

(** A transport that cannot reach the service. *)
Definition failingTransport : Session -> string -> string -> json -> result document :=
  fun _ _ _ _ => Err (TransportError "connection refused").

Definition englishSession : Session := mkSession (mkConfig "en").

(** A session that was configured without a locale. *)
Definition plainSession : Session := mkSession (mkConfig EmptyString).

(** The payload of an envelope of the earlier revision, written out. *)
Definition Old_wire_PriceProjection (p : Old.PriceProjection) : json :=
  JObject (member_if (nonempty (Old.PriceData p)) "priceData"
             (wire_strings (Old.PriceData p))).

Definition Old_wire_Params (p : Old.Params) : json :=
  JObject
    (member_if (isSet (Old.Params_MarketFilter p)) "filter"
       (wire_ptr wire_MarketFilter (Old.Params_MarketFilter p))
     ++ member_if (nonempty (Old.Params_MarketIds p)) "marketIds"
          (wire_strings (Old.Params_MarketIds p))
     ++ member_if (isSet (Old.Params_PriceProjection p)) "priceProjection"
          (wire_ptr Old_wire_PriceProjection (Old.Params_PriceProjection p))
     ++ member_if (nonempty (Old.Params_MarketProjection p)) "marketProjection"
          (wire_strings (Old.Params_MarketProjection p))
     ++ member_if (nonempty (Old.Params_OrderProjection p)) "orderProjection"
          (wire_strings (Old.Params_OrderProjection p))
     ++ member_if (nonempty (Old.Params_MatchProjection p)) "matchProjection"
          (wire_strings (Old.Params_MatchProjection p))
     ++ member_if (negb (Old.Params_MaxResults p =? 0)) "maxResults"
          (JNumber (formatInt (Old.Params_MaxResults p)))
     ++ member_if (nonblank (Old.Params_Locale p)) "locale"
          (JString (toValidUTF8 (Old.Params_Locale p)))).


(** Projections that select nothing, in both revisions. *)
Definition noProjections : ProjectionParams :=
  mkProjectionParams None None EmptyString EmptyString.

Definition Old_noProjections : Old.ProjectionParams :=
  Old.mkProjectionParams None None None None.

(** The members of a document that select a field of [fs]. *)
Definition knownMembers {L : GoLibrary} (fs : list Field) (ms : list (string * json))
  : list (string * json) :=
  filter (fun m => is_Some (findField fs m.1)) ms.

(** What the readers of the library return is well formed. *)
Definition libraryWellFormed (L : GoLibrary) : Prop :=
  (forall s f, parseFloat32 s = Some f -> valid_binary 24 128 f = true) /\
  (forall s tm, parseTime s = Some tm -> Time_wf tm = true).

(* ================================================================= *)
(** ** Further notions for the properties below *)

(** The wire names of the criteria of a filter that are set, in order. *)
Definition filterFieldNames (f : MarketFilter) : list string :=
  (if nonblank (TextQuery f) then ["textQuery"] else [])
  ++ (if nonempty (ExchangeIds f) then ["exchangeIds"] else [])
  ++ (if nonempty (EventTypeIds f) then ["eventTypeIds"] else [])
  ++ (if nonempty (EventIds f) then ["eventIds"] else [])
  ++ (if nonempty (CompetitionIds f) then ["competitionIds"] else [])
  ++ (if nonempty (MarketCountries f) then ["marketCountries"] else [])
  ++ (if nonempty (MarketFilter_MarketIds f) then ["marketIds"] else [])
  ++ (if nonempty (MarketTypeCodes f) then ["marketTypeCodes"] else []).

(** The wire names of a [MarketFilter]. *)
Definition filterWireNames : list string :=
  [ "textQuery"; "exchangeIds"; "eventTypeIds"; "eventIds"; "competitionIds";
    "marketCountries"; "marketIds"; "marketTypeCodes" ].

(** No criterion of the filter is set. *)
Definition noCriterion (f : MarketFilter) : bool :=
  negb (nonblank (TextQuery f)) && negb (nonempty (ExchangeIds f)) &&
  negb (nonempty (EventTypeIds f)) && negb (nonempty (EventIds f)) &&
  negb (nonempty (CompetitionIds f)) && negb (nonempty (MarketCountries f)) &&
  negb (nonempty (MarketFilter_MarketIds f)) && negb (nonempty (MarketTypeCodes f)).

(** What the decoder calls an answer that is neither an array nor
    [null]. *)
Definition answerKind (j : json) : option string :=
  match j with
  | JBool _ => Some "bool"
  | JNumber _ => Some "number"
  | JString _ => Some "string"
  | JObject _ => Some "object"
  | JNull | JArray _ => None
  end.

(** The range of Go's [int]. *)
Definition int64 (n : Z) : bool := (- 2 ^ 63 <=? n) && (n <? 2 ^ 63).

(** Decoding [j] keeps the target a value of its type. *)
Definition typedDecode {L : GoLibrary} (j : json) : Prop :=
  forall t old, has_type old t = true -> has_type (decode j t old).1 t = true.

(** A transport that gives the same answer to every request. *)
Definition answering (d : document) : Session -> string -> string -> json -> result document :=
  fun _ _ _ _ => Ok d.

(** An envelope with a filter and projections. *)
Definition sampleFilter : MarketFilter :=
  mkMarketFilter "Arsenal" None (Some ["1"]) None None (Some ["GB"; "IE"]) None
    (Some ["MATCH_ODDS"]).

Definition sampleEnvelope : Params :=
  mkParams (Some sampleFilter) None
    (Some (mkPriceProjection (Some [PriceDataEXBestOffers])))
    (Some [MarketProjectionEvent]) OrderProjectionAll EmptyString 25 "en".

(** Two country results, and the document they are written as. *)
Definition sampleCountries : value :=
  VSlice [ VStruct [ VString "GB"; VInt 11 ]; VStruct [ VString "IE"; VInt 3 ] ].

Definition sampleCountriesJSON : json :=
  JArray [ JObject [ ("CountryCode", JString "GB"); ("MarketCount", JNumber "11") ];
           JObject [ ("CountryCode", JString "IE"); ("MarketCount", JNumber "3") ] ].

(** An answer that is an object, as the service sends for a fault. *)
Definition faultAnswer : json :=
  JObject [ ("faultcode", JString "Client"); ("faultstring", JString "DSC-0018") ].

(** An envelope of the earlier revision that asks for all orders. *)
Definition sampleOldEnvelope : Old.Params :=
  Old.mkParams None None None None (Some [OrderProjectionAll]) None 0 "en".

(* ################################################################# *)
(** * Properties *)

(* ================================================================= *)
(** ** The encoder, loop by loop *)

Section EncoderFacts.
Context {L : GoLibrary}.

Lemma encode_slice (l : list value) (te : GoType) :
  encode (VSlice l) (TSlice te) = js ← encodeElems te l; Ok (JArray js).
Proof. reflexivity. Qed.

Lemma encode_struct (vs : list value) (name : string) (fs : list Field) :
  encode (VStruct vs) (TStruct name fs) = ms ← encodeFields vs fs; Ok (JObject ms).
Proof. reflexivity. Qed.

(** One field more in front of a struct whose encoding is known. *)
Lemma encodeFields_cons x vs f fs j ms :
  encode x f.2 = Ok j ->
  encodeFields vs fs = Ok ms ->
  encodeFields (x :: vs) (f :: fs)
  = Ok (member_if (negb (fieldOmitEmpty f && isEmptyValue x)) (fieldKey f) j ++ ms)%list.
Proof.
  intros Hx Hvs. cbn [encodeFields]. rewrite Hx, Hvs.
  destruct (fieldOmitEmpty f && isEmptyValue x); reflexivity.
Qed.

Lemma encode_strings (s : slice string) :
  encode (reflect_strings s) (TSlice TString) = Ok (wire_strings s).
Proof.
  destruct s as [l|]; [|reflexivity].
  unfold reflect_strings. rewrite encode_slice.
  assert (H : encodeElems TString (map VString l)
              = Ok (map (fun x => JString (toValidUTF8 x)) l)).
  { induction l as [|x l IH]; [reflexivity|].
    cbn [map]. change (encodeElems TString (VString x :: map VString l))
      with (j ← encode (VString x) TString;
            js ← encodeElems TString (map VString l); Ok (j :: js)).
    rewrite IH. reflexivity. }
  rewrite H. reflexivity.
Qed.

Lemma isEmpty_strings (s : slice string) :
  isEmptyValue (reflect_strings s) = negb (nonempty s).
Proof. destruct s as [[|x l]|]; reflexivity. Qed.

Lemma isEmpty_ptr {A} (r : A -> value) (p : ptr A) :
  isEmptyValue (reflect_ptr r p) = negb (isSet p).
Proof. destruct p; reflexivity. Qed.

End EncoderFacts.

(* ================================================================= *)
(** ** The wire form of the request structs *)

(** Encode a struct field by field; [leaf] settles the fields that are
    not plain values. *)
Ltac encode_fields leaf :=
  unfold Marshal; rewrite encode_struct;
  match goal with
  | |- context [encodeFields ?vs ?fs] =>
      eassert (H : encodeFields vs fs = Ok _);
      [ repeat (eapply encodeFields_cons; [first [leaf | reflexivity] | ]);
        reflexivity
      | rewrite H; clear H ]
  end;
  cbn [fieldOmitEmpty tagged fst snd omitempty andb];
  rewrite ?isEmpty_strings, ?isEmpty_ptr, ?negb_involutive, ?app_nil_r;
  reflexivity.

Section WireForm.
Context {L : GoLibrary}.

Lemma Marshal_MarketFilter (f : MarketFilter) :
  Marshal T.MarketFilter (reflect_MarketFilter f) = Ok (wire_MarketFilter f).
Proof.
  unfold T.MarketFilter, reflect_MarketFilter.
  encode_fields ltac:(apply encode_strings).
Qed.

Lemma Marshal_PriceProjection (p : PriceProjection) :
  Marshal T.PriceProjection (reflect_PriceProjection p) = Ok (wire_PriceProjection p).
Proof.
  unfold T.PriceProjection, reflect_PriceProjection.
  encode_fields ltac:(apply encode_strings).
Qed.

Lemma encode_ptr_MarketFilter (p : ptr MarketFilter) :
  encode (reflect_ptr reflect_MarketFilter p) (TPtr T.MarketFilter)
  = Ok (wire_ptr wire_MarketFilter p).
Proof. destruct p as [f|]; [apply (Marshal_MarketFilter f)|reflexivity]. Qed.

Lemma encode_ptr_PriceProjection (p : ptr PriceProjection) :
  encode (reflect_ptr reflect_PriceProjection p) (TPtr T.PriceProjection)
  = Ok (wire_ptr wire_PriceProjection p).
Proof. destruct p as [f|]; [apply (Marshal_PriceProjection f)|reflexivity]. Qed.

(** [json.Marshal(params)] never fails, and this is what it writes. *)
Lemma Marshal_Params (p : Params) :
  Marshal T.Params (reflect_Params p) = Ok (wire_Params p).
Proof.
  unfold T.Params, reflect_Params.
  encode_fields ltac:(first [ apply encode_strings
                            | apply encode_ptr_MarketFilter
                            | apply encode_ptr_PriceProjection ]).
Qed.

Lemma keys_wire_Params (p : Params) : keys (wire_Params p) = setFieldNames p.
Proof.
  unfold wire_Params, setFieldNames, keys, member_if.
  rewrite !map_app.
  repeat match goal with
         | |- context [if ?c then _ else _] => destruct c
         end; reflexivity.
Qed.

End WireForm.

(* ================================================================= *)
(** ** The request side *)

Section Requests.
Context {L : GoLibrary}.
Variable doRequest : Session -> string -> string -> json -> result document.

(** The helper is one exchange, with the envelope under the locale of
    the session as payload. *)
Lemma doBettingRequest_exchange s method params t :
  doBettingRequest doRequest s method params t VNil
  = exchange doRequest s method
      (wire_Params (set_Locale (Locale (config s)) params)) t.
Proof.
  unfold doBettingRequest, exchange. rewrite Marshal_Params.
  destruct (doRequest s "betting" (method ++ "/")%string _) as [data|e]; [|reflexivity].
  destruct (Unmarshal data t VNil) as [v [e|]]; reflexivity.
Qed.

Lemma call_helper s op :
  call doRequest s op
  = p ← envelope op;
    Returns (doBettingRequest doRequest s (methodName op) p
               (TSlice (resultType op)) VNil).
Proof.
  assert (eta : forall x : value * option error, (let (r, e) := x in (r, e)) = x)
    by (intros [r e]; reflexivity).
  assert (eta' : forall x : value * option error,
             (let (r, e) := x in Returns (r, e)) = Returns x)
    by (intros [r e]; reflexivity).
  destruct op as [f|f|f|f|ids [pp|]|f n [pp|]|f];
    cbn [call envelope methodName resultType mbind outcome_bind];
    unfold ListCompetitions, ListCountries, ListEvents, ListEventTypes,
      ListMarketBook, ListMarketCatalogue, ListMarketTypes, SetProjections;
    cbn [mbind outcome_bind]; rewrite ?eta, ?eta'; reflexivity.
Qed.

(** C7.  Each operation hands the helper an envelope in which only the
    fields of its own parameters are filled in and every other field is
    at its zero value: the five filter-only operations fill in the market
    filter alone, [ListMarketBook] the market ids and the four projections
    (the filter stays nil), [ListMarketCatalogue] the filter, the maximum
    number of results and the four projections. *)
Theorem C7_envelope_of_each_operation (s : Session) :
  (forall filter,
      ListCompetitions doRequest s filter
      = doBettingRequest doRequest s "listCompetitions"
          (mkParams filter None None None EmptyString EmptyString 0 EmptyString)
          (TSlice T.CompetitionResult) VNil) /\
  (forall filter,
      ListCountries doRequest s filter
      = doBettingRequest doRequest s "listCountries"
          (mkParams filter None None None EmptyString EmptyString 0 EmptyString)
          (TSlice T.CountryCodeResult) VNil) /\
  (forall filter,
      ListEvents doRequest s filter
      = doBettingRequest doRequest s "listEvents"
          (mkParams filter None None None EmptyString EmptyString 0 EmptyString)
          (TSlice T.EventResult) VNil) /\
  (forall filter,
      ListEventTypes doRequest s filter
      = doBettingRequest doRequest s "listEventTypes"
          (mkParams filter None None None EmptyString EmptyString 0 EmptyString)
          (TSlice T.EventTypeResult) VNil) /\
  (forall filter,
      ListMarketTypes doRequest s filter
      = doBettingRequest doRequest s "listMarketTypes"
          (mkParams filter None None None EmptyString EmptyString 0 EmptyString)
          (TSlice T.MarketTypeResult) VNil) /\
  (forall marketIds pp,
      ListMarketBook doRequest s marketIds (Some pp)
      = Returns (doBettingRequest doRequest s "listMarketBook"
          (mkParams None marketIds
             (ProjectionParams_PriceProjection pp)
             (ProjectionParams_MarketProjection pp)
             (ProjectionParams_OrderProjection pp)
             (ProjectionParams_MatchProjection pp) 0 EmptyString)
          (TSlice T.MarketBook) VNil)) /\
  (forall filter maxResults pp,
      ListMarketCatalogue doRequest s filter maxResults (Some pp)
      = Returns (doBettingRequest doRequest s "listMarketCatalogue"
          (mkParams filter None
             (ProjectionParams_PriceProjection pp)
             (ProjectionParams_MarketProjection pp)
             (ProjectionParams_OrderProjection pp)
             (ProjectionParams_MatchProjection pp) maxResults EmptyString)
          (TSlice T.MarketCatalogue) VNil)).
Proof.
  repeat split; intros.
  - apply (f_equal (fun o => match o with Returns r => r | Panics => (VNil, None) end)
             (call_helper s (OpListCompetitions filter))).
  - apply (f_equal (fun o => match o with Returns r => r | Panics => (VNil, None) end)
             (call_helper s (OpListCountries filter))).
  - apply (f_equal (fun o => match o with Returns r => r | Panics => (VNil, None) end)
             (call_helper s (OpListEvents filter))).
  - apply (f_equal (fun o => match o with Returns r => r | Panics => (VNil, None) end)
             (call_helper s (OpListEventTypes filter))).
  - apply (f_equal (fun o => match o with Returns r => r | Panics => (VNil, None) end)
             (call_helper s (OpListMarketTypes filter))).
  - apply (call_helper s (OpListMarketBook marketIds (Some pp))).
  - apply (call_helper s (OpListMarketCatalogue filter maxResults (Some pp))).
Qed.

(** The member [locale] of a payload is the locale of the envelope, and
    is missing when that is the empty string. *)
Lemma member_locale (p : Params) :
  member "locale" (wire_Params p)
  = if nonblank (Params_Locale p)
    then Some (JString (toValidUTF8 (Params_Locale p)))
    else None.
Proof.
  unfold wire_Params, member, member_if.
  repeat match goal with
         | |- context [if ?c then [_] else []] => destruct c
         end; reflexivity.
Qed.

(** C4.  Whatever the session and the operation, the request is the one
    the helper builds: the envelope of the operation with its locale set
    to the locale of the session, serialized (which cannot fail) and sent
    to the method of the betting API; the answer is decoded into the
    typed results.  The payload carries the session's locale as its
    [locale] member. *)
Theorem C4_shared_helper_sets_locale (s : Session) (op : Operation) :
  call doRequest s op
  = (p ← envelope op;
     Returns (doBettingRequest doRequest s (methodName op) p
                (TSlice (resultType op)) VNil)) /\
  forall p,
    let sent := set_Locale (Locale (config s)) p in
    Params_Locale sent = Locale (config s) /\
    Marshal T.Params (reflect_Params sent) = Ok (wire_Params sent) /\
    member "locale" (wire_Params sent)
    = (if nonblank (Locale (config s))
       then Some (JString (toValidUTF8 (Locale (config s))))
       else None) /\
    doBettingRequest doRequest s (methodName op) p (TSlice (resultType op)) VNil
    = match doRequest s "betting" (methodName op ++ "/")%string (wire_Params sent) with
      | Err e => (VNil, Some e)
      | Ok data => Unmarshal data (TSlice (resultType op)) VNil
      end.
Proof.
  split; [apply call_helper|].
  intros p sent. repeat split.
  - apply Marshal_Params.
  - apply (member_locale sent).
  - apply doBettingRequest_exchange.
Qed.

(** C5.  When an operation returns, what it returns is decided by the
    first stage that fails.  Serializing the envelope never fails.  An
    error of the transport is returned as it is, with nil results.  When
    there is an answer, the results and the error are exactly those of
    decoding it: a decoding error is returned as it is, and bytes that are
    not JSON leave the results nil. *)
Theorem C5_errors_returned_unchanged (s : Session) (op : Operation)
    (r : value * option error) :
  call doRequest s op = Returns r ->
  exists p payload,
    envelope op = Returns p /\
    Marshal T.Params (reflect_Params (set_Locale (Locale (config s)) p)) = Ok payload /\
    (forall e,
        doRequest s "betting" (methodName op ++ "/")%string payload = Err e ->
        r = (VNil, Some e)) /\
    (forall data,
        doRequest s "betting" (methodName op ++ "/")%string payload = Ok data ->
        r = Unmarshal data (TSlice (resultType op)) VNil) /\
    (forall why,
        doRequest s "betting" (methodName op ++ "/")%string payload = Ok (Garbage why) ->
        r = (VNil, Some (SyntaxError why))).
Proof.
  rewrite call_helper. destruct (envelope op) as [p|] eqn:He; [|discriminate].
  cbn [mbind outcome_bind]. intros [= <-].
  exists p, (wire_Params (set_Locale (Locale (config s)) p)).
  rewrite doBettingRequest_exchange. unfold exchange.
  repeat split.
  - apply Marshal_Params.
  - intros e ->. reflexivity.
  - intros data ->. reflexivity.
  - intros why ->. reflexivity.
Qed.

(** C9.  [ListMarketCatalogue] called with [maxResults] 0 sends a payload
    without a [maxResults] member, the same payload as if the field had
    never been assigned; with another value the member is there.  A
    session whose locale is the empty string sends a payload without a
    [locale] member. *)
Theorem C9_zero_is_unset_on_the_wire (s : Session) (filter : ptr MarketFilter)
    (pp : ProjectionParams) :
  let unset :=
    mkParams filter None
      (ProjectionParams_PriceProjection pp) (ProjectionParams_MarketProjection pp)
      (ProjectionParams_OrderProjection pp) (ProjectionParams_MatchProjection pp)
      (Params_MaxResults new_Params) EmptyString in
  let payload n := wire_Params (set_Locale (Locale (config s)) (set_MaxResults n unset)) in
  (forall n,
      ListMarketCatalogue doRequest s filter n (Some pp)
      = Returns (exchange doRequest s "listMarketCatalogue" (payload n)
                   (TSlice T.MarketCatalogue))) /\
  ~ In "maxResults" (keys (payload 0)) /\
  payload 0 = wire_Params (set_Locale (Locale (config s)) unset) /\
  (forall n, n <> 0 -> In "maxResults" (keys (payload n))) /\
  (Locale (config s) = EmptyString -> forall n, ~ In "locale" (keys (payload n))).
Proof.
  intros unset payload. repeat split.
  - intros n.
    pose proof (call_helper s (OpListMarketCatalogue filter n (Some pp))) as H.
    cbn [call envelope mbind outcome_bind methodName resultType] in H.
    rewrite H, doBettingRequest_exchange. reflexivity.
  - unfold payload. rewrite keys_wire_Params. unfold setFieldNames. cbn.
    rewrite !in_app_iff.
    repeat match goal with
           | |- context [if ?c then _ else _] => destruct c
           end; cbn; intuition discriminate.
  - intros n Hn. unfold payload. rewrite keys_wire_Params. unfold setFieldNames.
    cbn [set_Locale set_MaxResults unset Params_MaxResults].
    destruct (Z.eqb_spec n 0) as [->|_]; [contradiction|].
    rewrite !in_app_iff. do 6 right. left. cbn. left. reflexivity.
  - intros Hl n. unfold payload. rewrite keys_wire_Params. unfold setFieldNames.
    rewrite Hl. cbn. rewrite !in_app_iff.
    repeat match goal with
           | |- context [if ?c then _ else _] => destruct c
           end; cbn; intuition discriminate.
Qed.

End Requests.

(** C1.  [json.Marshal] of a [Params] succeeds with a JSON object whose
    member names are exactly the wire names of the fields that are set
    (not empty), in the order of the declaration; each of them is one of
    [filter], [marketIds], [priceProjection], [marketProjection],
    [orderProjection], [matchProjection], [maxResults] and [locale], and
    none occurs twice. *)
Theorem C1_params_wire_names {L : GoLibrary} (p : Params) :
  exists ms,
    Marshal T.Params (reflect_Params p) = Ok (JObject ms) /\
    map fst ms = setFieldNames p /\
    (forall k, In k (map fst ms) -> In k wireNames) /\
    NoDup (map fst ms).
Proof.
  pose proof (Marshal_Params p) as HM. pose proof (keys_wire_Params p) as HK.
  unfold wire_Params in *. eexists. split; [exact HM|].
  cbn [keys] in HK. rewrite HK. clear HM HK. unfold setFieldNames, wireNames.
  repeat match goal with
         | |- context [if ?c then _ else _] => destruct c
         end;
    (split; [reflexivity|]; split;
     [cbn; intros k Hk; intuition (subst; auto 10)
     |apply (bool_decide_unpack _); reflexivity]).
Qed.

(** C3.  Every declared constant of the enumerated types is serialized
    as the JSON string of the literal it is declared with. *)
Theorem C3_enum_constants_serialize_as_literals {L : GoLibrary} :
  Forall (fun c => Marshal TString (VString c.1) = Ok (JString c.2)) enumConstants /\
  Marshal TString (VString SideBack) = Ok (JString "BACK") /\
  Marshal TString (VString SideLay) = Ok (JString "LAY") /\
  Marshal TString (VString OrderProjectionAll) = Ok (JString "ALL").
Proof.
  split; [|repeat split].
  unfold enumConstants. repeat constructor.
Qed.

(** C8.  [SetProjections] copies the four fields [PriceProjection],
    [MarketProjection], [OrderProjection] and [MatchProjection] of the
    projections it is given into the receiver and leaves the receiver's
    [MarketFilter], [MarketIds], [MaxResults] and [Locale] as they were. *)
Theorem C8_SetProjections_frame (p : Params) (pp : ProjectionParams) :
  exists p',
    SetProjections p (Some pp) = Returns p' /\
    Params_PriceProjection p' = ProjectionParams_PriceProjection pp /\
    Params_MarketProjection p' = ProjectionParams_MarketProjection pp /\
    Params_OrderProjection p' = ProjectionParams_OrderProjection pp /\
    Params_MatchProjection p' = ProjectionParams_MatchProjection pp /\
    Params_MarketFilter p' = Params_MarketFilter p /\
    Params_MarketIds p' = Params_MarketIds p /\
    Params_MaxResults p' = Params_MaxResults p /\
    Params_Locale p' = Params_Locale p.
Proof. eexists. repeat split. Qed.

(* ================================================================= *)
(** ** The two revisions *)

Section Revisions.
Context {L : GoLibrary}.
Variable doRequest : Session -> string -> string -> json -> result document.

(** The envelope of a filter-only operation has the same wire form in
    both revisions: the projections left nil there and left blank here
    are both left out. *)
Lemma Old_Marshal_filter_only (filter : ptr MarketFilter) (locale : string) :
  Marshal Old.T.Params
    (Old.reflect_Params
       (Old.mkParams filter None None None None None 0 locale))
  = Ok (wire_Params
          (mkParams filter None None None EmptyString EmptyString 0 locale)).
Proof.
  unfold Old.T.Params, Old.reflect_Params.
  cbn [Old.Params_MarketFilter Old.Params_MarketIds Old.Params_PriceProjection
       Old.Params_MarketProjection Old.Params_OrderProjection
       Old.Params_MatchProjection Old.Params_MaxResults Old.Params_Locale].
  encode_fields ltac:(first [ apply encode_ptr_MarketFilter | reflexivity ]).
Qed.

Lemma Old_doBettingRequest_exchange s method filter t :
  Old.doBettingRequest doRequest s method
    (Old.set_MarketFilter filter Old.new_Params) t VNil
  = exchange doRequest s method
      (wire_Params (set_Locale (Locale (config s))
                      (set_MarketFilter filter new_Params))) t.
Proof.
  unfold Old.doBettingRequest, exchange.
  change (Old.set_Locale (Locale (config s)) (Old.set_MarketFilter filter Old.new_Params))
    with (Old.mkParams filter None None None None None 0 (Locale (config s))).
  rewrite Old_Marshal_filter_only.
  change (set_Locale (Locale (config s)) (set_MarketFilter filter new_Params))
    with (mkParams filter None None None EmptyString EmptyString 0 (Locale (config s))).
  destruct (doRequest s "betting" (method ++ "/")%string _) as [data|e]; [|reflexivity].
  destruct (Unmarshal data t VNil) as [v [e|]]; reflexivity.
Qed.

(** C10.  For the five filter-only operations the earlier revision and
    the current one behave alike on every input: each of them is one
    exchange under the same method name with the same payload, the
    envelopes agree on the filter and the locale and have nothing else
    filled in, and so the two revisions return the same results and the
    same error. *)
Theorem C10_revisions_agree_on_filter_only (s : Session) (filter : ptr MarketFilter) :
  let old := Old.set_Locale (Locale (config s)) (Old.set_MarketFilter filter Old.new_Params) in
  let new := set_Locale (Locale (config s)) (set_MarketFilter filter new_Params) in
  let payload := wire_Params new in
  (Marshal Old.T.Params (Old.reflect_Params old) = Ok payload /\
   Marshal T.Params (reflect_Params new) = Ok payload) /\
  (Old.Params_MarketFilter old = Params_MarketFilter new /\
   Old.Params_Locale old = Params_Locale new /\
   Old.Params_MaxResults old = 0 /\ Params_MaxResults new = 0 /\
   Old.Params_MarketIds old = None /\ Params_MarketIds new = None /\
   Old.Params_PriceProjection old = None /\ Params_PriceProjection new = None /\
   Old.Params_MarketProjection old = None /\ Params_MarketProjection new = None /\
   Old.Params_OrderProjection old = None /\ Params_OrderProjection new = EmptyString /\
   Old.Params_MatchProjection old = None /\ Params_MatchProjection new = EmptyString) /\
  (Old.ListCompetitions doRequest s filter
   = exchange doRequest s "listCompetitions" payload (TSlice T.CompetitionResult) /\
   ListCompetitions doRequest s filter
   = exchange doRequest s "listCompetitions" payload (TSlice T.CompetitionResult)) /\
  (Old.ListCountries doRequest s filter
   = exchange doRequest s "listCountries" payload (TSlice T.CountryCodeResult) /\
   ListCountries doRequest s filter
   = exchange doRequest s "listCountries" payload (TSlice T.CountryCodeResult)) /\
  (Old.ListEvents doRequest s filter
   = exchange doRequest s "listEvents" payload (TSlice T.EventResult) /\
   ListEvents doRequest s filter
   = exchange doRequest s "listEvents" payload (TSlice T.EventResult)) /\
  (Old.ListEventTypes doRequest s filter
   = exchange doRequest s "listEventTypes" payload (TSlice T.EventTypeResult) /\
   ListEventTypes doRequest s filter
   = exchange doRequest s "listEventTypes" payload (TSlice T.EventTypeResult)) /\
  (Old.ListMarketTypes doRequest s filter
   = exchange doRequest s "listMarketTypes" payload (TSlice T.MarketTypeResult) /\
   ListMarketTypes doRequest s filter
   = exchange doRequest s "listMarketTypes" payload (TSlice T.MarketTypeResult)).
Proof.
  intros old new payload.
  assert (eta : forall x : value * option error, (let (r, e) := x in (r, e)) = x)
    by (intros [r e]; reflexivity).
  split; [split; [apply Old_Marshal_filter_only|apply Marshal_Params]|].
  split; [repeat split|].
  unfold Old.ListCompetitions, Old.ListCountries, Old.ListEvents,
    Old.ListEventTypes, Old.ListMarketTypes,
    ListCompetitions, ListCountries, ListEvents, ListEventTypes, ListMarketTypes.
  cbv zeta. rewrite !eta, !Old_doBettingRequest_exchange, !doBettingRequest_exchange.
  repeat split.
Qed.

End Revisions.

(* ================================================================= *)
(** ** The decoder, loop by loop *)

Section DecoderFacts.
Context {L : GoLibrary}.

Lemma decode_array (l : list json) (te : GoType) (old : value) :
  decode (JArray l) (TSlice te) old
  = let (vs, st) := decodeElems te l (oldElems old) in (VSlice vs, st).
Proof. reflexivity. Qed.

Lemma decode_object (ms : list (string * json)) name fs (old : value) :
  decode (JObject ms) (TStruct name fs) old
  = let (vs, st) := decodeMembers fs ms (oldFields fs old) in (VStruct vs, st).
Proof. reflexivity. Qed.

Lemma decode_map (ms : list (string * json)) (old : value) :
  decode (JObject ms) TMapStringString old
  = let (m, st) := decodeEntries ms (oldMap old) in (VMap m, st).
Proof. reflexivity. Qed.

Lemma decode_ptr j te old :
  j <> JNull ->
  decode j (TPtr te) old
  = let (v, st) := decode j te (match old with VPtr p => p | _ => zero te end) in
    (VPtr v, st).
Proof.
  intros Hj. destruct j; try contradiction; cbn [decode indirect];
    destruct (indirect te _) as [[t' v'] n].
  - destruct (literalStore _ t' v'); reflexivity.
  - destruct (literalStore _ t' v'); reflexivity.
  - destruct (literalStore _ t' v'); reflexivity.
  - destruct t'; try reflexivity.
    match goal with |- context [let (_, _) := ?x in _] => destruct x end. reflexivity.
  - destruct t'; try reflexivity.
    + match goal with |- context [let (_, _) := ?x in _] => destruct x end. reflexivity.
    + match goal with |- context [let (_, _) := ?x in _] => destruct x end. reflexivity.
Qed.

Lemma value_ind' (P : value -> Prop) :
  (forall b, P (VBool b)) -> (forall n, P (VInt n)) -> (forall n, P (VUint32 n)) ->
  (forall f, P (VFloat32 f)) -> (forall s, P (VString s)) -> (forall t, P (VTime t)) ->
  P VNil -> (forall p, P p -> P (VPtr p)) ->
  (forall l, Forall P l -> P (VSlice l)) ->
  (forall m, P (VMap m)) ->
  (forall vs, Forall P vs -> P (VStruct vs)) ->
  forall v, P v.
Proof.
  intros Hb Hi Hu Hf Hs Ht Hn Hp Hl Hm Hst.
  fix IH 1. intros [b|n|n|f|s|t| |p|l|m|vs].
  - apply Hb. - apply Hi. - apply Hu. - apply Hf. - apply Hs. - apply Ht. - apply Hn.
  - apply Hp, IH.
  - apply Hl. revert l. fix IHl 1. intros [|x l]; constructor; [apply IH|apply IHl].
  - apply Hm.
  - apply Hst. revert vs. fix IHl 1. intros [|x l]; constructor; [apply IH|apply IHl].
Qed.

Lemma parseInt_formatInt n : parseInt (formatInt n) = Some n.
Proof.
  unfold parseInt, formatInt.
  rewrite NilZero.isi.
  - cbn. f_equal. apply DecimalZ.of_to.
  - destruct n; cbn; try discriminate.
    intros [= H]. exact (Unsigned.to_uint_nonnil _ H).
  - destruct n; cbn; try discriminate.
    intros [= H]. exact (Unsigned.to_uint_nonnil _ H).
Qed.

Lemma parseUint_formatInt n : 0 <= n -> parseUint (formatInt n) = Some n.
Proof.
  intros Hn. rewrite <- (parseInt_formatInt n). unfold parseUint, formatInt.
  destruct n as [|p|p]; [reflexivity| |lia].
  cbn [Z.to_int NilZero.string_of_int Pos.to_int].
  destruct (Pos.to_uint p) eqn:E; try reflexivity.
Qed.

Lemma has_type_slice l te :
  has_type (VSlice l) (TSlice te) = true <-> Forall (fun x => has_type x te = true) l.
Proof.
  induction l as [|x l IH]; [split; [constructor|reflexivity]|].
  change (has_type (VSlice (x :: l)) (TSlice te))
    with (has_type x te && has_type (VSlice l) (TSlice te)).
  rewrite andb_true_iff, IH. split; [intros []; constructor; auto|inversion 1; auto].
Qed.

Lemma survives_slice l te :
  survives (VSlice l) (TSlice te) = true <-> Forall (fun x => survives x te = true) l.
Proof.
  induction l as [|x l IH]; [split; [constructor|reflexivity]|].
  change (survives (VSlice (x :: l)) (TSlice te))
    with (survives x te && survives (VSlice l) (TSlice te)).
  rewrite andb_true_iff, IH. split; [intros []; constructor; auto|inversion 1; auto].
Qed.

Lemma has_type_struct vs name fs :
  has_type (VStruct vs) (TStruct name fs) = true
  <-> Forall2 (fun x f => has_type x f.2 = true) vs fs.
Proof.
  revert fs. induction vs as [|x vs IH]; intros [|f fs].
  - split; [constructor|reflexivity].
  - split; [discriminate|inversion 1].
  - split; [discriminate|inversion 1].
  - change (has_type (VStruct (x :: vs)) (TStruct name (f :: fs)))
      with (has_type x f.2 && has_type (VStruct vs) (TStruct name fs)).
    rewrite andb_true_iff, IH. split; [intros []; constructor; auto|inversion 1; auto].
Qed.

Lemma survives_struct vs name fs :
  length vs = length fs ->
  survives (VStruct vs) (TStruct name fs) = true ->
  Forall2 fieldSurvives vs fs.
Proof.
  revert fs. induction vs as [|x vs IH]; intros [|f fs]; try discriminate.
  - constructor.
  - intros [= Hl].
    change (survives (VStruct (x :: vs)) (TStruct name (f :: fs)))
      with (survives x f.2 &&
            (if fieldOmitEmpty f && isEmptyValue x then isZeroValue x else true) &&
            survives (VStruct vs) (TStruct name fs)).
    rewrite !andb_true_iff. intros [[H1 H2] H3]. constructor; [|auto].
    split; [exact H1|]. intros E. rewrite E in H2. exact H2.
Qed.

Lemma wf_struct name fs :
  wf_type (TStruct name fs) = true ->
  NoDup (map fieldKey fs) /\ Forall (fun f => wf_type f.2 = true) fs.
Proof.
  cbn [wf_type]. rewrite andb_true_iff. intros [H1 H2].
  split; [exact (proj1 (bool_decide_eq_true _) H1)|].
  clear H1. induction fs as [|f fs IH]; constructor.
  - apply andb_true_iff in H2. tauto.
  - apply IH. apply andb_true_iff in H2. tauto.
Qed.

End DecoderFacts.

(* ================================================================= *)
(** ** Encoding and decoding again *)

Section RoundTrip.
Context {L : GoLibrary}.

Lemma zero_struct name fs : zero (TStruct name fs) = VStruct (zeros fs).
Proof.
  reflexivity.
Qed.

Lemma isZero_zero x t : isZeroValue x = true -> has_type x t = true -> x = zero t.
Proof.
  destruct x, t; try discriminate; cbn [isZeroValue has_type zero]; intros Hz _;
    try reflexivity.
  - destruct b; [discriminate|reflexivity].
  - apply Z.eqb_eq in Hz. subst. reflexivity.
  - apply Z.eqb_eq in Hz. subst. reflexivity.
  - apply bool_decide_eq_true in Hz. subst. reflexivity.
  - apply String.eqb_eq in Hz. subst. reflexivity.
Qed.

Lemma encode_not_null v t j :
  nullable t = false -> encode v t = Ok j -> j <> JNull.
Proof.
  destruct v, t; try discriminate; intros _; cbn [encode].
  - intros [= <-]. discriminate.
  - intros [= <-]. discriminate.
  - intros [= <-]. discriminate.
  - unfold encodeFloat32. destruct f as [?|[]| |]; try discriminate;
      intros [= <-]; discriminate.
  - intros [= <-]. discriminate.
  - unfold encodeTime. destruct (Time_MarshalJSON _); [|discriminate].
    intros [= <-]. discriminate.
  - match goal with |- context [mbind _ ?x] => destruct x end; cbn; [|discriminate].
    intros [= <-]. discriminate.
Qed.

Lemma findField_middle pre f suf :
  NoDup (map fieldKey (pre ++ f :: suf)) ->
  findField (pre ++ f :: suf) (fieldKey f) = Some (length pre).
Proof.
  intros Hnd. unfold findField.
  assert (H : list_find (fun f' => fieldKey f' = fieldKey f) (pre ++ f :: suf)
              = Some (length pre, f)).
  { apply list_find_Some. split; [|split; [reflexivity|]].
    - rewrite lookup_app_r by lia. replace (length pre - length pre)%nat with O by lia.
      reflexivity.
    - intros i y Hy Hi Heq.
      rewrite lookup_app_l in Hy by exact Hi.
      rewrite map_app in Hnd. apply NoDup_app in Hnd as (_ & Hnd & _).
      apply (Hnd (fieldKey f)).
      + apply list_elem_of_fmap. exists y. split; [auto|]. eapply list_elem_of_lookup_2, Hy.
      + cbn. left. }
  rewrite H. reflexivity.
Qed.

Lemma decodeMembers_cons fs k x ms vs :
  decodeMembers fs ((k, x) :: ms) vs
  = match findField fs k with
    | None => decodeMembers fs ms vs
    | Some i =>
        let ft := nth i (map fieldType fs) TBool in
        let (v, st) := decode x ft (nth i vs (zero ft)) in
        let vs1 := <[i := v]> vs in
        match st with
        | Abort e => (vs1, Abort e)
        | _ =>
            let (vs2, st') := decodeMembers fs ms vs1 in
            (vs2, andThen st st')
        end
    end.
Proof. reflexivity. Qed.

Lemma fields_come_back fs :
  NoDup (map fieldKey fs) ->
  forall suf pre vpre vsuf,
    fs = pre ++ suf -> length vpre = length pre ->
    Forall comesBack vsuf ->
    Forall (fun f => wf_type f.2 = true) suf ->
    Forall2 (fun x f => has_type x f.2 = true) vsuf suf ->
    Forall2 fieldSurvives vsuf suf ->
    exists ms,
      encodeFields vsuf suf = Ok ms /\
      decodeMembers fs ms (vpre ++ zeros suf) = (vpre ++ vsuf, Good).
Proof.
  intros Hnd suf. induction suf as [|f suf IH]; intros pre vpre vsuf Hfs Hlen HP Hwf Hty Hsv.
  - inversion Hty; subst. exists []. split; [reflexivity|]. reflexivity.
  - inversion Hty as [|x ? vsuf' ? Hx Hty']; subst.
    inversion Hsv as [|? ? ? ? [Hsx Hzx] Hsv']; subst.
    inversion HP as [|? ? HPx HP']; subst.
    inversion Hwf as [|? ? Hwx Hwf']; subst.
    destruct (IH (pre ++ [f]) (vpre ++ [x]) vsuf') as (ms & Hms & Hdec); auto.
    { rewrite <- app_assoc. reflexivity. }
    { rewrite !length_app. cbn. lia. }
    rewrite <- !app_assoc in Hdec. cbn [app] in Hdec.
    cbn [encodeFields].
    destruct (fieldOmitEmpty f && isEmptyValue x) eqn:Eomit.
    + exists ms. split; [exact Hms|].
      pose proof (isZero_zero x f.2 (Hzx eq_refl) Hx) as Ex.
      rewrite Ex in Hdec |- *. exact Hdec.
    + destruct (HPx f.2 Hwx Hx Hsx) as (j & Hj & Hdj).
      rewrite Hj, Hms. exists ((fieldKey f, j) :: ms). split; [reflexivity|].
      rewrite decodeMembers_cons, findField_middle by exact Hnd.
      cbv zeta.
      assert (Hft : nth (length pre) (map fieldType (pre ++ f :: suf)) TBool = f.2).
      { rewrite map_app. cbn [map].
        rewrite <- (length_map fieldType pre). apply nth_middle. }
      rewrite Hft.
      assert (Hold : nth (length pre) (vpre ++ zeros (f :: suf)) (zero f.2) = zero f.2).
      { rewrite <- Hlen. cbn [zeros map]. apply nth_middle. }
      rewrite Hold, Hdj.
      assert (Hins : <[length pre := x]> (vpre ++ zeros (f :: suf)) = vpre ++ x :: zeros suf).
      { rewrite <- Hlen. rewrite insert_app_r_alt by lia.
        replace (length vpre - length vpre)%nat with O by lia. reflexivity. }
      rewrite Hins, Hdec. reflexivity.
Qed.

Lemma decodeElems_cons te x l olds :
  decodeElems te (x :: l) olds
  = let (v, st) := decode x te (hd (zero te) olds) in
    match st with
    | Abort e => (v :: tl olds, Abort e)
    | _ =>
        let (vs, st') := decodeElems te l (tl olds) in
        (v :: vs, andThen st st')
    end.
Proof. reflexivity. Qed.

Lemma encodeElems_cons te x l :
  encodeElems te (x :: l) = j ← encode x te; js ← encodeElems te l; Ok (j :: js).
Proof. reflexivity. Qed.

Lemma elems_come_back te l :
  wf_type te = true ->
  Forall comesBack l ->
  Forall (fun x => has_type x te = true) l ->
  Forall (fun x => survives x te = true) l ->
  exists js, encodeElems te l = Ok js /\ decodeElems te js [] = (l, Good).
Proof.
  intros Hwf HP Hty Hsv. induction l as [|x l IH].
  - exists []. split; reflexivity.
  - inversion HP; inversion Hty; inversion Hsv; subst.
    destruct IH as (js & Hjs & Hdec); auto.
    destruct (H1 te Hwf) as (j & Hj & Hdj); auto.
    exists (j :: js). rewrite encodeElems_cons, Hj, Hjs. split; [reflexivity|].
    rewrite decodeElems_cons. cbn [hd tl]. rewrite Hdj, Hdec. reflexivity.
Qed.

Lemma decodeEntries_strings l m0 :
  Forall (fun kv => validUTF8 kv.1 && validUTF8 kv.2 = true) l ->
  decodeEntries (map (fun kv => (toValidUTF8 kv.1, JString (toValidUTF8 kv.2))) l) m0
  = (foldl put m0 l, Good).
Proof.
  intros H. revert m0. induction H as [|[k v] l Hkv _ IH]; intros m0; [reflexivity|].
  cbn [map fst snd]. apply andb_true_iff in Hkv as [Hk Hv].
  apply String.eqb_eq in Hk, Hv. cbn [fst snd] in Hk, Hv. rewrite Hk, Hv.
  cbn [decodeEntries decode indirect literalStore wrapPtr stringOf foldl].
  rewrite IH. reflexivity.
Qed.

Lemma foldl_put_lookup l : 
  NoDup l.*1 ->
  forall m0 k,
    foldl put m0 l !! k
    = match (list_to_map l : gmap string string) !! k with
      | Some v => Some v
      | None => m0 !! k
      end.
Proof.
  induction l as [|[k1 v1] l IH]; intros Hnd m0 k.
  - cbn. rewrite lookup_empty. reflexivity.
  - cbn [fmap list_fmap fst] in Hnd. apply NoDup_cons in Hnd as [Hnotin Hnd].
    cbn [foldl list_to_map foldr fst snd]. rewrite IH by exact Hnd. unfold put. cbn [fst snd].
    destruct (decide (k1 = k)) as [->|Hne].
    + rewrite lookup_insert_eq.
      rewrite (not_elem_of_list_to_map_1 _ _ Hnotin), lookup_insert_eq. reflexivity.
    + rewrite !lookup_insert_ne by exact Hne. reflexivity.
Qed.

Lemma entries_come_back (m : gmap string string) :
  survivesEntries m = true ->
  decodeEntries
    (map (fun kv => (toValidUTF8 kv.1, JString (toValidUTF8 kv.2))) (sortedEntries m)) ∅
  = (m, Good).
Proof.
  intros Hs. unfold survivesEntries in Hs. rewrite forallb_forall in Hs.
  assert (Hperm : sortedEntries m ≡ₚ map_to_list m) by apply merge_sort_Permutation.
  rewrite decodeEntries_strings.
  - f_equal. apply map_eq. intros k.
    rewrite foldl_put_lookup.
    + rewrite lookup_empty.
      rewrite (list_to_map_proper _ (map_to_list m)), list_to_map_to_list.
      * destruct (m !! k); reflexivity.
      * rewrite Hperm. apply NoDup_fst_map_to_list.
      * exact Hperm.
    + rewrite Hperm. apply NoDup_fst_map_to_list.
  - apply Forall_forall. intros kv Hin. apply Hs.
    apply list_elem_of_In. rewrite <- Hperm. exact Hin.
Qed.

(** Every value comes back. *)
Lemma all_come_back v : comesBack v.
Proof.
  induction v as [b|n|n|f|s|tm| |p IHp|l IHl|m|vs IHvs] using value_ind';
    intros t Hwf Hty Hsv; destruct t; try discriminate.
  - eexists. split; reflexivity.
  - eexists. split; [reflexivity|].
    cbn [decode indirect wrapPtr zero literalStore]. rewrite parseInt_formatInt.
    cbn [has_type] in Hty. rewrite Hty. reflexivity.
  - eexists. split; [reflexivity|].
    cbn [has_type] in Hty. apply andb_true_iff in Hty as [H0 H1].
    cbn [decode indirect wrapPtr zero literalStore].
    rewrite parseUint_formatInt by (apply Z.leb_le; exact H0). rewrite H1. reflexivity.
  - cbn [survives] in Hsv. unfold survivesFloat in Hsv.
    apply andb_true_iff in Hsv as [H0 H1]. apply negb_true_iff in H0.
    apply bool_decide_eq_true in H1.
    exists (JNumber (formatFloat32 f)). split.
    + cbn [encode]. unfold encodeFloat32. destruct f; try discriminate; reflexivity.
    + cbn [decode indirect wrapPtr zero literalStore]. rewrite H1. reflexivity.
  - cbn [survives] in Hsv. apply String.eqb_eq in Hsv.
    exists (JString (toValidUTF8 s)). split; [reflexivity|].
    cbn [decode indirect wrapPtr zero literalStore]. rewrite Hsv. reflexivity.
  - cbn [survives] in Hsv. unfold survivesTime in Hsv.
    destruct (Time_MarshalJSON tm) as [text|] eqn:E; [|discriminate].
    apply bool_decide_eq_true in Hsv.
    exists (JString text). split.
    + cbn [encode]. unfold encodeTime. rewrite E. reflexivity.
    + cbn [decode indirect wrapPtr zero literalStore]. rewrite Hsv. reflexivity.
  - exists JNull. split; reflexivity.
  - exists JNull. split; reflexivity.
  - exists JNull. split; reflexivity.
  - cbn [survives] in Hsv. apply andb_true_iff in Hsv as [Hn Hsv].
    apply negb_true_iff in Hn.
    destruct (IHp t Hwf Hty Hsv) as (j & Hj & Hdj).
    exists j. split; [exact Hj|].
    rewrite decode_ptr by (eapply encode_not_null; eauto).
    cbn [zero]. rewrite Hdj. reflexivity.
  - apply has_type_slice in Hty. apply survives_slice in Hsv.
    destruct (elems_come_back t l Hwf IHl Hty Hsv) as (js & Hjs & Hdec).
    exists (JArray js). split.
    + rewrite encode_slice, Hjs. reflexivity.
    + rewrite decode_array. cbn [zero oldElems]. rewrite Hdec. reflexivity.
  - exists (encodeMap m). split; [reflexivity|].
    unfold encodeMap. rewrite decode_map. cbn [zero oldMap].
    rewrite entries_come_back by exact Hsv. reflexivity.
  - apply wf_struct in Hwf as [Hnd Hwf].
    pose proof (proj1 (has_type_struct _ _ _) Hty) as Hty'.
    pose proof (survives_struct _ _ _ (Forall2_length _ _ _ Hty') Hsv) as Hsv'.
    destruct (fields_come_back fields Hnd fields [] [] vs eq_refl eq_refl IHvs Hwf Hty' Hsv')
      as (ms & Hms & Hdec).
    exists (JObject ms). split.
    + rewrite encode_struct, Hms. reflexivity.
    + rewrite decode_object, zero_struct. cbn [oldFields]. cbn [app] in Hdec.
      rewrite Hdec. reflexivity.
Qed.

End RoundTrip.

(* ================================================================= *)
(** ** Which members are written *)

Section Keys.
Context {L : GoLibrary}.

Lemma encodeFields_key_kept vs : forall fs ms,
  encodeFields vs fs = Ok ms ->
  forall k, In k (map fst ms) ->
  exists i f x,
    fs !! i = Some f /\ vs !! i = Some x /\ fieldKey f = k /\
    fieldOmitEmpty f && isEmptyValue x = false.
Proof.
  induction vs as [|x vs IH]; intros [|f fs] ms; cbn [encodeFields]; try discriminate.
  - intros [= <-] k [].
  - destruct (fieldOmitEmpty f && isEmptyValue x) eqn:E.
    + intros Hms k Hk. destruct (IH fs ms Hms k Hk) as (i & f' & x' & H1 & H2 & H3 & H4).
      exists (S i), f', x'. auto.
    + destruct (encode x f.2) as [j|]; [|discriminate]. cbn.
      destruct (encodeFields vs fs) as [ms'|] eqn:Hms; [|discriminate]. cbn.
      intros [= <-] k [Hk|Hk].
      * exists O, f, x. auto.
      * destruct (IH fs ms' Hms k Hk) as (i & f' & x' & H1 & H2 & H3 & H4).
        exists (S i), f', x'. auto.
Qed.

Lemma encodeFields_kept_key vs : forall fs ms,
  encodeFields vs fs = Ok ms ->
  forall i f x,
    fs !! i = Some f -> vs !! i = Some x ->
    fieldOmitEmpty f && isEmptyValue x = false ->
    In (fieldKey f) (map fst ms).
Proof.
  induction vs as [|x vs IH]; intros [|f fs] ms; cbn [encodeFields]; try discriminate.
  intros Hms [|i] f' x' Hf Hx Hkept.
  - injection Hf as <-. injection Hx as <-. rewrite Hkept in Hms.
    destruct (encode x f.2) as [j|]; [|discriminate]. cbn in Hms.
    destruct (encodeFields vs fs) as [ms'|]; [|discriminate]. cbn in Hms.
    injection Hms as <-. left. reflexivity.
  - cbn in Hf, Hx. destruct (fieldOmitEmpty f && isEmptyValue x).
    + eapply IH; eauto.
    + destruct (encode x f.2) as [j|]; [|discriminate]. cbn in Hms.
      destruct (encodeFields vs fs) as [ms'|] eqn:E; [|discriminate]. cbn in Hms.
      injection Hms as <-. right. eapply IH; eauto.
Qed.

Lemma key_left_out name fs vs j i f x :
  NoDup (map fieldKey fs) ->
  Marshal (TStruct name fs) (VStruct vs) = Ok j ->
  fs !! i = Some f -> vs !! i = Some x ->
  fieldOmitEmpty f && isEmptyValue x = true ->
  ~ In (fieldKey f) (keys j).
Proof.
  intros Hnd HM Hf Hx Homit Hin. unfold Marshal in HM. rewrite encode_struct in HM.
  destruct (encodeFields vs fs) as [ms|] eqn:Hms; [|discriminate].
  injection HM as <-. cbn [keys] in Hin.
  destruct (encodeFields_key_kept vs fs ms Hms _ Hin) as (i' & f' & x' & Hf' & Hx' & Hk & Hkept).
  assert (i' = i).
  { eapply NoDup_lookup; [exact Hnd| |].
    - rewrite list_lookup_fmap, Hf'. cbn. rewrite Hk. reflexivity.
    - rewrite list_lookup_fmap, Hf. reflexivity. }
  subst i'. rewrite Hf in Hf'. injection Hf' as <-. rewrite Hx in Hx'. injection Hx' as <-.
  rewrite Homit in Hkept. discriminate.
Qed.

Lemma zero_is_empty f : omittable f = true -> fieldOmitEmpty f && isEmptyValue (zero (fieldType f)) = true.
Proof.
  unfold omittable. intros H. apply andb_true_iff in H as [H1 H2]. rewrite H1.
  destruct (fieldType f); try discriminate; reflexivity.
Qed.

(** C2 (amended).  Every field of [Params], [MarketFilter] and
    [PriceProjection] is left out of the output when it holds its zero
    value.  In [Runner] and [Match] this holds for the fields that are
    tagged [omitempty] and whose type is not a struct: [selectionId],
    [handicap], [status], [adjustmentFactor], [lastPriceTraded],
    [totalMatched], [orders] and [matches] of a runner, [betId] and
    [matchId] of a match.  The fields of a match that are not tagged
    [omitempty], [price], [side] and [size], are always written. *)
Theorem C2_zero_fields_left_out :
  (map fieldKey (filter (fun f => omittable f = true) (structFields T.Params)) = wireNames /\
   Forall (fun f => omittable f = true) (structFields T.MarketFilter) /\
   Forall (fun f => omittable f = true) (structFields T.PriceProjection) /\
   map fieldKey (filter (fun f => omittable f = true) (structFields T.Runner))
   = [ "selectionId"; "handicap"; "status"; "adjustmentFactor"; "lastPriceTraded";
       "totalMatched"; "orders"; "matches" ] /\
   map fieldKey (filter (fun f => omittable f = true) (structFields T.Match))
   = [ "betId"; "matchId" ] /\
   map fieldKey (filter (fun f => fieldOmitEmpty f = false) (structFields T.Match))
   = [ "price"; "side"; "size" ]) /\
  forall t vs j,
    In t taggedStructs ->
    Marshal t (VStruct vs) = Ok j ->
    (forall i f,
        structFields t !! i = Some f -> omittable f = true ->
        vs !! i = Some (zero (fieldType f)) ->
        ~ In (fieldKey f) (keys j)) /\
    (forall i f x,
        structFields t !! i = Some f -> fieldOmitEmpty f = false ->
        vs !! i = Some x ->
        In (fieldKey f) (keys j)).
Proof.
  split.
  { repeat split; try reflexivity; repeat constructor. }
  intros t vs j Ht HM.
  assert (Hs : exists name fs, t = TStruct name fs /\ NoDup (map fieldKey fs)).
  { cbn in Ht. destruct Ht as [<-|[<-|[<-|[<-|[<-|[]]]]]]; eexists _, _;
      (split; [reflexivity|apply (bool_decide_unpack _); vm_compute; exact I]). }
  destruct Hs as (name & fs & -> & Hnd). cbn [structFields]. split.
  - intros i f Hf Hom Hx. eapply key_left_out; eauto using zero_is_empty.
  - intros i f x Hf Hno Hx. unfold Marshal in HM. rewrite encode_struct in HM.
    destruct (encodeFields vs fs) as [ms|] eqn:Hms; [|discriminate].
    injection HM as <-. cbn [keys].
    eapply encodeFields_kept_key; eauto. rewrite Hno. reflexivity.
Qed.

End Keys.

(** C2 as stated fails: the zero [Match] is written with its [price],
    [side] and [size], and with its [matchDate]. *)
Lemma C2_counterexample_zero_Match :
  Marshal (L := exampleLibrary) T.Match (zero T.Match)
  = Ok (JObject [ ("matchDate", JString "0001-01-01T00:00:00Z");
                  ("price", JString EmptyString);
                  ("side", JString EmptyString);
                  ("size", JNumber "0") ]).
Proof. reflexivity. Qed.

(* ================================================================= *)
(** ** The result structs *)

(** C6 (amended).  For every result struct type and every value of it
    in which each string (and each key and value of a map) is valid UTF-8,
    each float is finite and is read back from its literal, each time is
    read back from its RFC 3339 text, and each field that is left out for
    being empty holds its zero value (a nil slice rather than an empty
    one, no negative zero), serializing the value succeeds and
    deserializing the output into a zero value yields the value back. *)
Theorem C6_results_round_trip {L : GoLibrary} (t : GoType) (v : value) :
  In t resultTypes ->
  has_type v t = true ->
  survives v t = true ->
  exists j,
    Marshal t v = Ok j /\
    Unmarshal (Text j) t (zero t) = (v, None).
Proof.
  intros Ht Hty Hsv.
  assert (Hwf : wf_type t = true).
  { cbn in Ht. destruct Ht as [<-|[<-|[<-|[<-|[<-|[<-|[<-|[]]]]]]]]; vm_compute; reflexivity. }
  destruct (all_come_back v t Hwf Hty Hsv) as (j & Hj & Hd).
  exists j. split; [exact Hj|]. unfold Unmarshal. rewrite Hd. reflexivity.
Qed.


(** C6 as stated fails: a country code that is not valid UTF-8 is written
    as U+FFFD and comes back as those three bytes. *)
Lemma C6_counterexample_invalid_utf8 :
  has_type badCountry T.CountryCodeResult = true /\
  exists j back,
    Marshal (L := exampleLibrary) T.CountryCodeResult badCountry = Ok j /\
    Unmarshal (L := exampleLibrary) (Text j) T.CountryCodeResult (zero T.CountryCodeResult)
    = (back, None) /\
    back <> badCountry.
Proof.
  split; [reflexivity|].
  eexists _, _. split; [reflexivity|]. split; [reflexivity|].
  vm_compute. discriminate.
Qed.


(** The round trip of a market book with a runner, prices and a match. *)
Lemma C6_witness :
  In T.MarketBook resultTypes /\
  has_type sampleBook T.MarketBook = true /\
  survives (L := exampleLibrary) sampleBook T.MarketBook = true /\
  exists j,
    Marshal (L := exampleLibrary) T.MarketBook sampleBook = Ok j /\
    Unmarshal (L := exampleLibrary) (Text j) T.MarketBook (zero T.MarketBook)
    = (sampleBook, None).
Proof.
  assert (H1 : In T.MarketBook resultTypes) by (cbn; tauto).
  assert (H2 : has_type sampleBook T.MarketBook = true) by (vm_compute; reflexivity).
  assert (H3 : survives (L := exampleLibrary) sampleBook T.MarketBook = true)
    by (vm_compute; reflexivity).
  split; [exact H1|]. split; [exact H2|]. split; [exact H3|].
  exact (C6_results_round_trip (L := exampleLibrary) T.MarketBook sampleBook H1 H2 H3).
Defined.

(* ================================================================= *)
(** ** The statements at concrete inputs *)

(** The zero [Match]: [betId] and [matchId] are left out, [price], [side]
    and [size] are written. *)
Lemma C2_witness :
  In T.Match taggedStructs /\
  Marshal (L := exampleLibrary) T.Match (VStruct (zeros (structFields T.Match)))
  = Ok (JObject [ ("matchDate", JString "0001-01-01T00:00:00Z");
                  ("price", JString EmptyString);
                  ("side", JString EmptyString);
                  ("size", JNumber "0") ]) /\
  ~ In "betId" (keys (JObject [ ("matchDate", JString "0001-01-01T00:00:00Z");
                                ("price", JString EmptyString);
                                ("side", JString EmptyString);
                                ("size", JNumber "0") ])) /\
  In "price" (keys (JObject [ ("matchDate", JString "0001-01-01T00:00:00Z");
                              ("price", JString EmptyString);
                              ("side", JString EmptyString);
                              ("size", JNumber "0") ])).
Proof.
  assert (H1 : In T.Match taggedStructs) by (cbn; tauto).
  assert (H2 : Marshal (L := exampleLibrary) T.Match (VStruct (zeros (structFields T.Match)))
               = Ok (JObject [ ("matchDate", JString "0001-01-01T00:00:00Z");
                               ("price", JString EmptyString);
                               ("side", JString EmptyString);
                               ("size", JNumber "0") ])) by reflexivity.
  split; [exact H1|]. split; [exact H2|].
  pose proof (proj2 (C2_zero_fields_left_out (L := exampleLibrary)) T.Match _ _ H1 H2)
    as [Hout Hin].
  split.
  - exact (Hout 0%nat (tagged "BetID" TString "betId" true) eq_refl eq_refl eq_refl).
  - exact (Hin 3%nat (tagged "Price" TString "price" false) (VString EmptyString)
             eq_refl eq_refl eq_refl).
Defined.

(** [ListCompetitions] over a transport that fails: the error of the
    transport, and nil results. *)
Lemma C5_witness :
  call (L := exampleLibrary) failingTransport englishSession (OpListCompetitions None)
  = Returns (VNil, Some (TransportError "connection refused")) /\
  exists p payload,
    envelope (OpListCompetitions None) = Returns p /\
    Marshal (L := exampleLibrary) T.Params
      (reflect_Params (set_Locale (Locale (config englishSession)) p)) = Ok payload /\
    (forall e,
        failingTransport englishSession "betting" "listCompetitions/" payload = Err e ->
        (VNil, Some (TransportError "connection refused")) = (VNil, Some e)) /\
    (forall data,
        failingTransport englishSession "betting" "listCompetitions/" payload = Ok data ->
        (VNil, Some (TransportError "connection refused"))
        = Unmarshal (L := exampleLibrary) data (TSlice T.CompetitionResult) VNil) /\
    (forall why,
        failingTransport englishSession "betting" "listCompetitions/" payload
        = Ok (Garbage why) ->
        (VNil, Some (TransportError "connection refused")) = (VNil, Some (SyntaxError why))).
Proof.
  assert (H : call (L := exampleLibrary) failingTransport englishSession
                (OpListCompetitions None)
              = Returns (VNil, Some (TransportError "connection refused")))
    by reflexivity.
  split; [exact H|].
  exact (C5_errors_returned_unchanged (L := exampleLibrary) failingTransport
           englishSession (OpListCompetitions None) _ H).
Defined.

(** [ListMarketCatalogue] with [maxResults] 0 in a session without a
    locale: neither member is sent. *)
Lemma C9_witness :
  Locale (config plainSession) = EmptyString /\
  ~ In "maxResults"
      (keys (wire_Params (set_Locale (Locale (config plainSession))
               (set_MaxResults 0
                  (mkParams None None None None EmptyString EmptyString
                     (Params_MaxResults new_Params) EmptyString))))) /\
  ~ In "locale"
      (keys (wire_Params (set_Locale (Locale (config plainSession))
               (set_MaxResults 0
                  (mkParams None None None None EmptyString EmptyString
                     (Params_MaxResults new_Params) EmptyString))))).
Proof.
  assert (H : Locale (config plainSession) = EmptyString) by reflexivity.
  split; [exact H|].
  pose proof (C9_zero_is_unset_on_the_wire (L := exampleLibrary) failingTransport
                plainSession None (mkProjectionParams None None EmptyString EmptyString))
    as (_ & Hmax & _ & _ & Hloc).
  split; [exact Hmax|exact (Hloc H 0)].
Defined.

(* ================================================================= *)
(** ** Further examples *)

(** A [NaN] is refused by the encoder, so a market book that holds one
    is not serialized at all. *)
Example nan_is_refused :
  Marshal (L := exampleLibrary) T.PriceSize
    (VStruct [ VFloat32 S754_nan; VFloat32 float32_zero ])
  = Err (UnsupportedValueError "NaN").
Proof. reflexivity. Qed.

(** An empty slice under [omitempty] is left out and comes back nil. *)
Example empty_slice_comes_back_nil :
  exists j,
    Marshal (L := exampleLibrary) T.PriceProjection (VStruct [ VSlice [] ]) = Ok j /\
    Unmarshal (L := exampleLibrary) (Text j) T.PriceProjection (zero T.PriceProjection)
    = (VStruct [ VNil ], None).
Proof. eexists. split; reflexivity. Qed.

(** The zero [Runner] is written with its removal date and its two
    price structs, although the three fields are tagged [omitempty]. *)
Example zero_Runner_on_the_wire :
  Marshal (L := exampleLibrary) T.Runner (zero T.Runner)
  = Ok (JObject [ ("removalDate", JString "0001-01-01T00:00:00Z");
                  ("sp", JObject []);
                  ("ex", JObject []) ]).
Proof. reflexivity. Qed.

(** Member names in the spelling of the remote API select the untagged
    fields through the folded name. *)
Example api_spelling_is_accepted :
  Unmarshal (L := exampleLibrary)
    (Text (JArray
       [ JObject [ ("eventType", JObject [ ("id", JString "1");
                                            ("name", JString "Soccer") ]);
                   ("marketCount", JNumber "25388") ] ]))
    (TSlice T.EventTypeResult) VNil
  = (VSlice [ VStruct [ VPtr (VStruct [ VString "1"; VString "Soccer" ]);
                        VInt 25388 ] ],
     None).
Proof. reflexivity. Qed.

(** A number where a string is expected is reported, and the rest of the
    document is still decoded. *)
Example type_error_is_kept_and_decoding_goes_on :
  Unmarshal (L := exampleLibrary)
    (Text (JObject [ ("countryCode", JNumber "7"); ("marketCount", JNumber "3") ]))
    T.CountryCodeResult (zero T.CountryCodeResult)
  = (VStruct [ VString EmptyString; VInt 3 ],
     Some (UnmarshalTypeError "number" "string")).
Proof. reflexivity. Qed.

(** Reading the projections through a nil pointer panics before any
    request is made. *)
Example nil_projections_panic :
  ListMarketBook (L := exampleLibrary) failingTransport englishSession None None = Panics.
Proof. reflexivity. Qed.

(** A time in the year 10000 has no RFC 3339 text, so an event that
    opens then is not serialized at all. *)
Example year_out_of_range_is_refused :
  Marshal (L := exampleLibrary) T.Event
    (VStruct [ VString "1"; VString "Final"; VString "GB"; VString "UTC";
               VString "Wembley"; VTime (mkTime 10000 1 1 0 0 0 0 0 UTC None) ])
  = Err (MarshalerError "Time.MarshalJSON: year outside of range [0,9999]").
Proof. reflexivity. Qed.

(* ================================================================= *)
(** ** Panics, composition and the filter *)

Section MoreRequests.
Context {L : GoLibrary}.
Variable doRequest : Session -> string -> string -> json -> result document.


(** X2.  Of two calls of [SetProjections] the second decides: the first
    leaves no trace, and repeating a call changes nothing.  The call
    commutes with the assignments of the market ids, the filter and the
    maximum number of results.  Nil projections panic on any receiver. *)
Theorem X2_SetProjections_last_wins (p : Params) (a b : ProjectionParams) :
  (p' ← SetProjections p (Some a); SetProjections p' (Some b))
  = SetProjections p (Some b) /\
  (p' ← SetProjections p (Some a); SetProjections p' (Some a))
  = SetProjections p (Some a) /\
  (forall ids,
      (p' ← SetProjections p (Some a); Returns (set_MarketIds ids p'))
      = SetProjections (set_MarketIds ids p) (Some a)) /\
  (forall filter n,
      (p' ← SetProjections p (Some a);
       Returns (set_MaxResults n (set_MarketFilter filter p')))
      = SetProjections (set_MaxResults n (set_MarketFilter filter p)) (Some a)) /\
  (forall q, SetProjections q None = Panics).
Proof. repeat split. Qed.

(** X4.  The payload has a [filter] member exactly when the filter of
    the envelope is not nil, and the member is then the object of that
    filter; the object is empty exactly when no criterion is set. *)
Theorem X4_filter_member (p : Params) :
  exists j,
    Marshal T.Params (reflect_Params p) = Ok j /\
    member "filter" j
    = match Params_MarketFilter p with
      | None => None
      | Some f => Some (wire_MarketFilter f)
      end /\
    forall f, Params_MarketFilter p = Some f ->
      (member "filter" j = Some (JObject []) <-> noCriterion f = true).
Proof.
  exists (wire_Params p). split; [apply Marshal_Params|].
  assert (H : member "filter" (wire_Params p)
              = match Params_MarketFilter p with
                | None => None
                | Some f => Some (wire_MarketFilter f)
                end).
  { unfold wire_Params. destruct (Params_MarketFilter p) as [f|]; [reflexivity|].
    unfold member, member_if. cbn [isSet app].
    repeat match goal with
           | |- context [if ?c then [_] else []] => destruct c
           end; reflexivity. }
  split; [exact H|]. intros f Hf. rewrite H, Hf.
  unfold wire_MarketFilter, noCriterion, member_if.
  destruct (nonblank (TextQuery f)), (nonempty (ExchangeIds f)),
    (nonempty (EventTypeIds f)), (nonempty (EventIds f)),
    (nonempty (CompetitionIds f)), (nonempty (MarketCountries f)),
    (nonempty (MarketFilter_MarketIds f)), (nonempty (MarketTypeCodes f));
    cbn; split; intros H'; solve [reflexivity | discriminate].
Qed.

(** X5.  A [MarketFilter] is always serialized, as an object whose
    member names are the wire names of its criteria that are set, in the
    order of the declaration, none of them twice. *)
Theorem X5_filter_wire_names (f : MarketFilter) :
  exists ms,
    Marshal T.MarketFilter (reflect_MarketFilter f) = Ok (JObject ms) /\
    map fst ms = filterFieldNames f /\
    (forall k, In k (map fst ms) -> In k filterWireNames) /\
    NoDup (map fst ms).
Proof.
  pose proof (Marshal_MarketFilter f) as HM. unfold wire_MarketFilter in HM.
  eexists. split; [exact HM|]. clear HM.
  unfold filterFieldNames, filterWireNames, member_if. rewrite !map_app.
  destruct (nonblank (TextQuery f)), (nonempty (ExchangeIds f)),
    (nonempty (EventTypeIds f)), (nonempty (EventIds f)),
    (nonempty (CompetitionIds f)), (nonempty (MarketCountries f)),
    (nonempty (MarketFilter_MarketIds f)), (nonempty (MarketTypeCodes f));
    (split; [reflexivity|]; split;
     [cbn; intros k Hk; intuition (subst; auto 10)
     |apply (bool_decide_unpack _); reflexivity]).
Qed.

End MoreRequests.

(* ================================================================= *)
(** ** What the answers turn into *)

Section Answers.
Context {L : GoLibrary}.
Variable doRequest : Session -> string -> string -> json -> result document.

Lemma call_exchange s op p :
  envelope op = Returns p ->
  call doRequest s op
  = Returns (exchange doRequest s (methodName op)
               (wire_Params (set_Locale (Locale (config s)) p))
               (TSlice (resultType op))).
Proof.
  intros He. rewrite call_helper, He. cbn [mbind outcome_bind].
  rewrite doBettingRequest_exchange. reflexivity.
Qed.

(** X7.  When the service answers [null] an operation returns nil
    results and no error; when it answers the empty array, an empty slice
    that is not nil, and no error. *)
Theorem X7_null_and_empty_answers (s : Session) (op : Operation) (p : Params) :
  envelope op = Returns p ->
  let payload := wire_Params (set_Locale (Locale (config s)) p) in
  (doRequest s "betting" (methodName op ++ "/")%string payload = Ok (Text JNull) ->
   call doRequest s op = Returns (VNil, None)) /\
  (doRequest s "betting" (methodName op ++ "/")%string payload = Ok (Text (JArray [])) ->
   call doRequest s op = Returns (VSlice [], None)).
Proof.
  intros He payload. rewrite (call_exchange s op p He). unfold exchange. fold payload.
  split; intros ->; reflexivity.
Qed.

(** X8.  When the service answers with an object, a string, a number
    or a boolean instead of an array, an operation returns nil results
    and the type error of the decoder naming that kind. *)
Theorem X8_fault_answers (s : Session) (op : Operation) (p : Params)
    (j : json) (kind : string) :
  envelope op = Returns p ->
  answerKind j = Some kind ->
  doRequest s "betting" (methodName op ++ "/")%string
    (wire_Params (set_Locale (Locale (config s)) p)) = Ok (Text j) ->
  call doRequest s op = Returns (VNil, Some (UnmarshalTypeError kind "slice")).
Proof.
  intros He Hk Hd. rewrite (call_exchange s op p He). unfold exchange. rewrite Hd.
  destruct j; try discriminate; injection Hk as <-; reflexivity.
Qed.

Lemma wf_resultType op : wf_type (TSlice (resultType op)) = true.
Proof. destruct op; vm_compute; reflexivity. Qed.

(** X10.  When the service answers with the document that a list of
    results is serialized as, and the results survive serialization, the
    operation returns those results and no error. *)
Theorem X10_results_as_encoded (s : Session) (op : Operation) (p : Params)
    (rs : value) (j : json) :
  envelope op = Returns p ->
  has_type rs (TSlice (resultType op)) = true ->
  survives rs (TSlice (resultType op)) = true ->
  Marshal (TSlice (resultType op)) rs = Ok j ->
  doRequest s "betting" (methodName op ++ "/")%string
    (wire_Params (set_Locale (Locale (config s)) p)) = Ok (Text j) ->
  call doRequest s op = Returns (rs, None).
Proof.
  intros He Hty Hsv Hj Hd. rewrite (call_exchange s op p He). unfold exchange. rewrite Hd.
  destruct (all_come_back rs _ (wf_resultType op) Hty Hsv) as (j' & Hj' & Hdec).
  unfold Marshal in Hj. rewrite Hj in Hj'. injection Hj' as <-.
  unfold Unmarshal. cbn [zero] in Hdec. rewrite Hdec. reflexivity.
Qed.

Lemma decodeMembers_known fs ms : forall vs,
  decodeMembers fs ms vs = decodeMembers fs (knownMembers fs ms) vs.
Proof.
  induction ms as [|[k x] ms IH]; intros vs; [reflexivity|].
  unfold knownMembers. rewrite filter_cons. cbn [fst]. fold (knownMembers fs ms).
  rewrite decodeMembers_cons.
  destruct (findField fs k) as [i|] eqn:E.
  - rewrite decide_True by eauto.
    rewrite decodeMembers_cons, E. cbv zeta.
    destruct (decode x _ _) as [v st]. rewrite IH. reflexivity.
  - rewrite decide_False by (intros [? ?]; discriminate). apply IH.
Qed.

(** X11.  Members of the answer that select no field of the result
    struct are ignored: the results and the error are those of the
    answer without them. *)
Theorem X11_unknown_members_ignored (name : string) (fs : list Field)
    (objects : list (list (string * json))) :
  Unmarshal (Text (JArray (map JObject objects))) (TSlice (TStruct name fs)) VNil
  = Unmarshal (Text (JArray (map (fun ms => JObject (knownMembers fs ms)) objects)))
      (TSlice (TStruct name fs)) VNil.
Proof.
  unfold Unmarshal. rewrite !decode_array. cbn [oldElems].
  assert (H : forall olds,
             decodeElems (TStruct name fs) (map JObject objects) olds
             = decodeElems (TStruct name fs)
                 (map (fun ms => JObject (knownMembers fs ms)) objects) olds).
  { induction objects as [|ms objects IH]; intros olds; [reflexivity|].
    cbn [map]. rewrite !decodeElems_cons, !decode_object, <- decodeMembers_known.
    destruct (decodeMembers fs ms _) as [vs st]. rewrite IH. reflexivity. }
  rewrite H. reflexivity.
Qed.

End Answers.

Section Envelope.
Context {L : GoLibrary}.

Lemma has_type_strings s : has_type (reflect_strings s) (TSlice TString) = true.
Proof.
  destruct s as [l|]; [|reflexivity]. apply has_type_slice.
  induction l; constructor; auto.
Qed.

Lemma reflect_strings_inj s1 s2 : reflect_strings s1 = reflect_strings s2 -> s1 = s2.
Proof.
  destruct s1 as [l1|], s2 as [l2|]; cbn; try discriminate; [|reflexivity].
  intros [= H]. f_equal. revert l2 H.
  induction l1 as [|x l1 IH]; intros [|y l2]; cbn; try discriminate; [reflexivity|].
  intros [= -> H]. f_equal. auto.
Qed.

Lemma reflect_MarketFilter_inj f1 f2 :
  reflect_MarketFilter f1 = reflect_MarketFilter f2 -> f1 = f2.
Proof.
  destruct f1, f2. unfold reflect_MarketFilter. cbn.
  intros [= -> H1 H2 H3 H4 H5 H6 H7].
  apply reflect_strings_inj in H1, H2, H3, H4, H5, H6, H7. subst. reflexivity.
Qed.

Lemma reflect_Params_inj p q : reflect_Params p = reflect_Params q -> p = q.
Proof.
  destruct p as [f1 i1 pp1 mp1 o1 m1 n1 l1], q as [f2 i2 pp2 mp2 o2 m2 n2 l2].
  unfold reflect_Params. cbn.
  intros [= H1 H2 H3 H4 -> -> -> ->].
  apply reflect_strings_inj in H2, H4. subst. f_equal.
  - destruct f1, f2; cbn in H1; try discriminate; [|reflexivity].
    f_equal. apply reflect_MarketFilter_inj. congruence.
  - destruct pp1 as [[d1]|], pp2 as [[d2]|]; cbn in H3; try discriminate; [|reflexivity].
    injection H3 as H3. apply reflect_strings_inj in H3. subst. reflexivity.
Qed.

Lemma has_type_Params p :
  int64 (Params_MaxResults p) = true -> has_type (reflect_Params p) T.Params = true.
Proof.
  intros Hn. apply has_type_struct. unfold reflect_Params.
  repeat constructor; cbn [snd tagged];
    try apply has_type_strings; try exact Hn.
  - destruct (Params_MarketFilter p) as [f|]; [|reflexivity].
    cbn [reflect_ptr has_type]. apply has_type_struct.
    repeat constructor; apply has_type_strings.
  - destruct (Params_PriceProjection p) as [f|]; [|reflexivity].
    cbn [reflect_ptr has_type]. apply has_type_struct.
    repeat constructor; apply has_type_strings.
Qed.

(** X6.  An envelope whose strings are valid UTF-8 and whose slices are
    nil or not empty can be read back from its payload, so two such
    envelopes with the same payload are the same envelope. *)
Theorem X6_payload_determines_envelope (p : Params) :
  int64 (Params_MaxResults p) = true ->
  survives (reflect_Params p) T.Params = true ->
  (exists j,
      Marshal T.Params (reflect_Params p) = Ok j /\
      Unmarshal (Text j) T.Params (zero T.Params) = (reflect_Params p, None)) /\
  (forall q,
      int64 (Params_MaxResults q) = true ->
      survives (reflect_Params q) T.Params = true ->
      Marshal T.Params (reflect_Params q) = Marshal T.Params (reflect_Params p) ->
      q = p).
Proof.
  intros Hn Hs.
  assert (Hwf : wf_type T.Params = true) by (vm_compute; reflexivity).
  assert (Hback : forall r, int64 (Params_MaxResults r) = true ->
            survives (reflect_Params r) T.Params = true ->
            decode (wire_Params r) T.Params (zero T.Params) = (reflect_Params r, Good)).
  { intros r Hr Hsr.
    destruct (all_come_back _ _ Hwf (has_type_Params r Hr) Hsr) as (j & Hj & Hd).
    pose proof (Marshal_Params r) as HM. unfold Marshal in HM. rewrite HM in Hj.
    injection Hj as <-. exact Hd. }
  split.
  - exists (wire_Params p). split; [apply Marshal_Params|].
    unfold Unmarshal. rewrite (Hback p Hn Hs). reflexivity.
  - intros q Hq Hsq HM. rewrite !Marshal_Params in HM.
    assert (HW : wire_Params q = wire_Params p) by congruence.
    apply reflect_Params_inj.
    pose proof (Hback q Hq Hsq) as H1. pose proof (Hback p Hn Hs) as H2.
    rewrite HW in H1. congruence.
Qed.

End Envelope.

(* ================================================================= *)
(** ** Decoding keeps the types *)

Section Typing.
Context {L : GoLibrary}.
Hypothesis HL : libraryWellFormed L.

Lemma GoType_ind' (P : GoType -> Prop) :
  P TBool -> P TInt -> P TUint32 -> P TFloat32 -> P TString -> P TTime ->
  (forall te, P te -> P (TPtr te)) ->
  (forall te, P te -> P (TSlice te)) ->
  P TMapStringString ->
  (forall name fs, Forall (fun f : Field => P f.2) fs -> P (TStruct name fs)) ->
  forall t, P t.
Proof.
  intros H1 H2 H3 H4 H5 H6 Hp Hs Hm Hst.
  fix IH 1. intros [| | | | | |te|te| |name fs].
  - exact H1. - exact H2. - exact H3. - exact H4. - exact H5. - exact H6.
  - apply Hp, IH.
  - apply Hs, IH.
  - exact Hm.
  - apply Hst. revert fs. fix IHl 1.
    intros [|[[a b] t] fs]; constructor; [apply IH|apply IHl].
Qed.

Lemma json_ind' (P : json -> Prop) :
  P JNull -> (forall b, P (JBool b)) -> (forall lit, P (JNumber lit)) ->
  (forall s, P (JString s)) ->
  (forall l, Forall P l -> P (JArray l)) ->
  (forall ms, Forall (fun m : string * json => P m.2) ms -> P (JObject ms)) ->
  forall j, P j.
Proof.
  intros H1 H2 H3 H4 Ha Ho.
  fix IH 1. intros [|b|lit|s|l|ms].
  - exact H1. - apply H2. - apply H3. - apply H4.
  - apply Ha. revert l. fix IHl 1. intros [|x l]; constructor; [apply IH|apply IHl].
  - apply Ho. revert ms. fix IHl 1. intros [|[k x] ms]; constructor; [apply IH|apply IHl].
Qed.

Lemma zero_typed t : has_type (zero t) t = true.
Proof.
  induction t as [| | | | | |te IH|te IH| |name fs IH] using GoType_ind'; try reflexivity.
  rewrite zero_struct. apply has_type_struct.
  induction IH as [|f fs Hf _ IHfs]; constructor; auto.
Qed.

Lemma indirect_typed t : forall old,
  has_type old t = true ->
  has_type (indirect t old).1.2 (indirect t old).1.1 = true /\
  (forall v, has_type v (indirect t old).1.1 = true ->
             has_type (wrapPtr (indirect t old).2 v) t = true) /\
  (forall te, (indirect t old).1.1 <> TPtr te).
Proof.
  induction t; intros old Hold; cbn [indirect];
    try (split; [exact Hold|split; [intros v Hv; exact Hv|intros te; discriminate]]).
  set (pointee := match old with VPtr p => p | _ => zero t end).
  assert (Hp : has_type pointee t = true).
  { destruct old; try discriminate; [apply zero_typed|exact Hold]. }
  destruct (IHt pointee Hp) as (H1 & H2 & H3).
  destruct (indirect t pointee) as [[t' v'] n]. cbn in *.
  split; [exact H1|]. split; [|exact H3].
  intros v Hv. apply H2. exact Hv.
Qed.

Lemma parseUint_nonneg s n : parseUint s = Some n -> 0 <= n.
Proof.
  unfold parseUint, parseInt, NilZero.int_of_string.
  destruct s as [|a s]; [discriminate|].
  destruct (Ascii.eqb a "-") eqn:E.
  - apply Ascii.eqb_eq in E. subst. discriminate.
  - assert (H : forall r, (Z.of_int <$> option_map Pos r) = Some n -> 0 <= n).
    { intros [u|]; [|discriminate]. cbn. intros [= <-].
      unfold Z.of_uint. apply N2Z.is_nonneg. }
    destruct a as [[] [] [] [] [] [] [] []]; try discriminate; apply H.
Qed.

Lemma literalStore_typed j t old :
  (forall te, t <> TPtr te) ->
  has_type old t = true ->
  has_type (literalStore j t old).1 t = true.
Proof.
  destruct HL as [HF HT]. intros Hnp Hold.
  destruct t, j; cbn [literalStore mismatch fst]; try exact Hold; try reflexivity.
  - destruct (parseInt literal) as [n|]; [|exact Hold].
    destruct ((- 2 ^ 63 <=? n) && (n <? 2 ^ 63)) eqn:E; [exact E|exact Hold].
  - destruct (parseUint literal) as [n|] eqn:E; [|exact Hold].
    destruct (n <? 2 ^ 32) eqn:E2; [|exact Hold].
    cbn [fst has_type]. rewrite E2, andb_true_r. apply Z.leb_le.
    eapply parseUint_nonneg, E.
  - destruct (parseFloat32 literal) as [f|] eqn:E; [|exact Hold].
    cbn [fst has_type]. eapply HF, E.
  - destruct (parseTime s) as [tm|] eqn:E; [|reflexivity].
    cbn [fst has_type]. eapply HT, E.
Qed.

Lemma decodeElems_typed te l :
  Forall typedDecode l ->
  forall olds,
    Forall (fun x => has_type x te = true) olds ->
    Forall (fun x => has_type x te = true) (decodeElems te l olds).1.
Proof.
  intros HP. induction HP as [|x l Hx _ IH]; intros olds Holds; [constructor|].
  rewrite decodeElems_cons.
  assert (Hhd : has_type (hd (zero te) olds) te = true).
  { destruct Holds; [apply zero_typed|assumption]. }
  assert (Htl : Forall (fun x => has_type x te = true) (tl olds)).
  { destruct Holds; [constructor|assumption]. }
  pose proof (Hx te _ Hhd) as Hv. pose proof (IH _ Htl) as Hvs.
  destruct (decode x te (hd (zero te) olds)) as [v st]. cbn [fst] in Hv.
  destruct (decodeElems te l (tl olds)) as [vs st']. cbn [fst] in Hvs.
  destruct st; cbn [fst]; constructor; auto.
Qed.

Lemma findField_lookup fs k i :
  findField fs k = Some i -> exists f, fs !! i = Some f.
Proof.
  unfold findField.
  destruct (list_find _ fs) as [[i' f]|] eqn:E.
  - intros [= <-]. apply list_find_Some in E as (H & _). eauto.
  - destruct (list_find (fun f => foldName (fieldKey f) = foldName k) fs)
      as [[i' f]|] eqn:E2; [|discriminate].
    cbn. intros [= <-]. apply list_find_Some in E2 as (H & _). eauto.
Qed.

Lemma decodeMembers_typed fs ms :
  Forall (fun m : string * json => typedDecode m.2) ms ->
  forall vs,
    Forall2 (fun x (f : Field) => has_type x f.2 = true) vs fs ->
    Forall2 (fun x (f : Field) => has_type x f.2 = true) (decodeMembers fs ms vs).1 fs.
Proof.
  intros HP. induction HP as [|[k x] ms Hx _ IH]; intros vs Hvs; [exact Hvs|].
  rewrite decodeMembers_cons.
  destruct (findField fs k) as [i|] eqn:E; [|apply IH; exact Hvs].
  destruct (findField_lookup _ _ _ E) as [f Hf]. cbv zeta.
  assert (Hft : nth i (map fieldType fs) TBool = f.2).
  { apply nth_lookup_Some with (d := TBool).
    rewrite list_lookup_fmap, Hf. reflexivity. }
  rewrite Hft.
  destruct (Forall2_lookup_r _ _ _ _ _ Hvs Hf) as (x0 & Hx0 & Hty).
  rewrite (nth_lookup_Some _ _ (zero f.2) _ Hx0).
  pose proof (Hx f.2 x0 Hty) as Hv. cbn [snd] in Hv.
  destruct (decode x f.2 x0) as [v st]. cbn [fst] in Hv.
  assert (Hvs1 : Forall2 (fun x (f : Field) => has_type x f.2 = true) (<[i:=v]> vs) fs).
  { rewrite <- (list_insert_id fs i f Hf). apply Forall2_insert; assumption. }
  pose proof (IH _ Hvs1) as H2.
  destruct (decodeMembers fs ms (<[i:=v]> vs)) as [vs2 st'].
  destruct st; cbn [fst] in *; assumption.
Qed.

Lemma decode_typed j : typedDecode j.
Proof.
  induction j as [|b|lit|s|l IH|ms IH] using json_ind'; intros t old Hold.
  - cbn [decode fst]. destruct t; cbn [storeNull]; try exact Hold; reflexivity.
  - cbn [decode]. destruct (indirect_typed t old Hold) as (H1 & H2 & H3).
    destruct (indirect t old) as [[t' v'] n]. cbn [fst snd] in *.
    pose proof (literalStore_typed (JBool b) t' v' H3 H1) as H.
    destruct (literalStore (JBool b) t' v'). apply H2, H.
  - cbn [decode]. destruct (indirect_typed t old Hold) as (H1 & H2 & H3).
    destruct (indirect t old) as [[t' v'] n]. cbn [fst snd] in *.
    pose proof (literalStore_typed (JNumber lit) t' v' H3 H1) as H.
    destruct (literalStore (JNumber lit) t' v'). apply H2, H.
  - cbn [decode]. destruct (indirect_typed t old Hold) as (H1 & H2 & H3).
    destruct (indirect t old) as [[t' v'] n]. cbn [fst snd] in *.
    pose proof (literalStore_typed (JString s) t' v' H3 H1) as H.
    destruct (literalStore (JString s) t' v'). apply H2, H.
  - pose proof (indirect_typed t old Hold) as (H1 & H2 & H3).
    assert (E : decode (JArray l) t old
                = let '(t', target, n) := indirect t old in
                  let (v, st) := decode (JArray l) t' target in (wrapPtr n v, st)).
    { cbn [decode]. destruct (indirect t old) as [[t' v'] n].
      destruct t'; try reflexivity.
      - exfalso. eapply H3. reflexivity.
      - cbn [indirect wrapPtr].
        match goal with |- context [let (_, _) := ?x in _] => destruct x end. reflexivity. }
    rewrite E. clear E.
    destruct (indirect t old) as [[t' v'] n]. cbn [fst snd] in *.
    assert (H : has_type (decode (JArray l) t' v').1 t' = true).
    { destruct t'; try exact H1; try (exfalso; eapply H3; reflexivity).
      rewrite decode_array.
      assert (Holds : Forall (fun x => has_type x t' = true) (oldElems v')).
      { destruct v'; try discriminate; [constructor|]. apply has_type_slice. exact H1. }
      pose proof (decodeElems_typed t' l IH _ Holds) as Hvs.
      destruct (decodeElems t' l (oldElems v')) as [vs st]. cbn [fst] in *.
      apply has_type_slice. exact Hvs. }
    destruct (decode (JArray l) t' v') as [v st]. cbn [fst] in *. apply H2, H.
  - pose proof (indirect_typed t old Hold) as (H1 & H2 & H3).
    assert (E : decode (JObject ms) t old
                = let '(t', target, n) := indirect t old in
                  let (v, st) := decode (JObject ms) t' target in (wrapPtr n v, st)).
    { cbn [decode]. destruct (indirect t old) as [[t' v'] n].
      destruct t'; try reflexivity.
      - exfalso. eapply H3. reflexivity.
      - cbn [indirect wrapPtr].
        match goal with |- context [let (_, _) := ?x in _] => destruct x end. reflexivity.
      - cbn [indirect wrapPtr].
        match goal with |- context [let (_, _) := ?x in _] => destruct x end. reflexivity. }
    rewrite E. clear E.
    destruct (indirect t old) as [[t' v'] n]. cbn [fst snd] in *.
    assert (H : has_type (decode (JObject ms) t' v').1 t' = true).
    { destruct t'; try exact H1; try (exfalso; eapply H3; reflexivity).
      - rewrite decode_map. destruct (decodeEntries ms (oldMap v')). reflexivity.
      - rewrite decode_object.
        assert (Holds : Forall2 (fun x (f : Field) => has_type x f.2 = true)
                          (oldFields fields v') fields).
        { destruct v'; try discriminate. apply has_type_struct in H1. exact H1. }
        pose proof (decodeMembers_typed fields ms IH _ Holds) as Hvs.
        destruct (decodeMembers fields ms (oldFields fields v')) as [vs st]. cbn [fst] in *.
        apply has_type_struct. exact Hvs. }
    destruct (decode (JObject ms) t' v') as [v st]. cbn [fst] in *. apply H2, H.
Qed.

Variable doRequest : Session -> string -> string -> json -> result document.

(** X9.  Whatever the service answers, the results an operation
    returns are a slice of its result struct with every integer in range,
    provided the readers of the library return well formed floats and
    times. *)
Theorem X9_results_are_typed (s : Session) (op : Operation)
    (r : value) (e : option error) :
  call doRequest s op = Returns (r, e) ->
  has_type r (TSlice (resultType op)) = true.
Proof.
  rewrite call_helper. destruct (envelope op) as [p|]; [|discriminate].
  cbn [mbind outcome_bind]. rewrite doBettingRequest_exchange. unfold exchange.
  destruct (doRequest _ _ _ _) as [[j|why]|err].
  - unfold Unmarshal.
    pose proof (decode_typed j (TSlice (resultType op)) VNil eq_refl) as H.
    destruct (decode j _ VNil) as [v st]. intros [= <- _]. exact H.
  - intros [= <- _]. reflexivity.
  - intros [= <- _]. reflexivity.
Qed.

End Typing.

(* ================================================================= *)
(** ** More on the earlier revision *)

Section OldRevision.
Context {L : GoLibrary}.
Variable doRequest : Session -> string -> string -> json -> result document.

Lemma Old_Marshal_PriceProjection (p : Old.PriceProjection) :
  Marshal Old.T.PriceProjection (Old.reflect_PriceProjection p)
  = Ok (Old_wire_PriceProjection p).
Proof.
  unfold Old.T.PriceProjection, Old.reflect_PriceProjection.
  encode_fields ltac:(apply encode_strings).
Qed.

Lemma Old_encode_ptr_PriceProjection (p : ptr Old.PriceProjection) :
  encode (reflect_ptr Old.reflect_PriceProjection p) (TPtr Old.T.PriceProjection)
  = Ok (wire_ptr Old_wire_PriceProjection p).
Proof. destruct p as [f|]; [apply (Old_Marshal_PriceProjection f)|reflexivity]. Qed.

Lemma Old_Marshal_Params (p : Old.Params) :
  Marshal Old.T.Params (Old.reflect_Params p) = Ok (Old_wire_Params p).
Proof.
  unfold Old.T.Params, Old.reflect_Params.
  encode_fields ltac:(first [ apply encode_strings
                            | apply encode_ptr_MarketFilter
                            | apply Old_encode_ptr_PriceProjection ]).
Qed.

Lemma Old_helper_exchange s method params t :
  Old.doBettingRequest doRequest s method params t VNil
  = exchange doRequest s method
      (Old_wire_Params (Old.set_Locale (Locale (config s)) params)) t.
Proof.
  unfold Old.doBettingRequest, exchange. rewrite Old_Marshal_Params.
  destruct (doRequest s "betting" (method ++ "/")%string _) as [data|e]; [|reflexivity].
  destruct (Unmarshal data t VNil) as [v [e|]]; reflexivity.
Qed.

(** X12.  [ListMarketBook] of the earlier revision and the current one
    called with empty projections send the same payload to the same
    method; they differ in the struct the answer is decoded into. *)
Theorem X12_ListMarketBook_without_projections (s : Session) (marketIds : slice string) :
  let payload :=
    wire_Params (mkParams None marketIds None None EmptyString EmptyString 0
                   (Locale (config s))) in
  Old.ListMarketBook doRequest s marketIds
  = exchange doRequest s "listMarketBook" payload (TSlice Old.T.MarketBook) /\
  ListMarketBook doRequest s marketIds (Some noProjections)
  = Returns (exchange doRequest s "listMarketBook" payload (TSlice T.MarketBook)).
Proof.
  intros payload. split.
  - unfold Old.ListMarketBook. cbv zeta. rewrite Old_helper_exchange.
    destruct (exchange _ _ _ _ _) eqn:E. rewrite <- E. reflexivity.
  - pose proof (call_helper doRequest s (OpListMarketBook marketIds (Some noProjections))) as H.
    cbn [call envelope mbind outcome_bind methodName resultType] in H.
    rewrite H, doBettingRequest_exchange. reflexivity.
Qed.

(** X13.  With empty projections [ListMarketCatalogue] behaves alike in
    the two revisions, and with nil projections it panics in both. *)
Theorem X13_ListMarketCatalogue_without_projections (s : Session)
    (filter : ptr MarketFilter) (maxResults : Z) :
  Old.ListMarketCatalogue doRequest s filter maxResults (Some Old_noProjections)
  = ListMarketCatalogue doRequest s filter maxResults (Some noProjections) /\
  Old.ListMarketCatalogue doRequest s filter maxResults None = Panics /\
  ListMarketCatalogue doRequest s filter maxResults None = Panics.
Proof.
  split; [|split; reflexivity].
  pose proof (call_helper doRequest s
                (OpListMarketCatalogue filter maxResults (Some noProjections))) as H.
  cbn [call envelope mbind outcome_bind methodName resultType] in H.
  rewrite H, doBettingRequest_exchange.
  unfold Old.ListMarketCatalogue, Old.SetProjections. cbv zeta.
  cbn [mbind outcome_bind]. rewrite Old_helper_exchange.
  destruct (exchange doRequest s "listMarketCatalogue" (Old_wire_Params _) _) eqn:E.
  rewrite <- E. reflexivity.
Qed.

Lemma member_orderProjection (q : Params) :
  member "orderProjection" (wire_Params q)
  = if nonblank (Params_OrderProjection q)
    then Some (JString (toValidUTF8 (Params_OrderProjection q)))
    else None.
Proof.
  unfold wire_Params, member, member_if.
  repeat match goal with
         | |- context [if ?c then [_] else []] => destruct c
         end; reflexivity.
Qed.

Lemma member_matchProjection (q : Params) :
  member "matchProjection" (wire_Params q)
  = if nonblank (Params_MatchProjection q)
    then Some (JString (toValidUTF8 (Params_MatchProjection q)))
    else None.
Proof.
  unfold wire_Params, member, member_if.
  repeat match goal with
         | |- context [if ?c then [_] else []] => destruct c
         end; reflexivity.
Qed.

Lemma Old_member_orderProjection (p : Old.Params) :
  member "orderProjection" (Old_wire_Params p)
  = if nonempty (Old.Params_OrderProjection p)
    then Some (wire_strings (Old.Params_OrderProjection p))
    else None.
Proof.
  unfold Old_wire_Params, member, member_if.
  repeat match goal with
         | |- context [if ?c then [_] else []] => destruct c
         end; reflexivity.
Qed.

Lemma Old_member_matchProjection (p : Old.Params) :
  member "matchProjection" (Old_wire_Params p)
  = if nonempty (Old.Params_MatchProjection p)
    then Some (wire_strings (Old.Params_MatchProjection p))
    else None.
Proof.
  unfold Old_wire_Params, member, member_if.
  repeat match goal with
         | |- context [if ?c then [_] else []] => destruct c
         end; reflexivity.
Qed.

(** X14.  An envelope of the earlier revision that has an order or a
    match projection is never serialized like an envelope of the current
    one: the member is an array there and a string here. *)
Theorem X14_projection_wire_form_changed (p : Old.Params) (q : Params) :
  nonempty (Old.Params_OrderProjection p) || nonempty (Old.Params_MatchProjection p) = true ->
  Marshal Old.T.Params (Old.reflect_Params p) <> Marshal T.Params (reflect_Params q).
Proof.
  rewrite Old_Marshal_Params, Marshal_Params. intros Hset Heq.
  assert (HW : Old_wire_Params p = wire_Params q) by congruence. clear Heq.
  apply orb_true_iff in Hset as [Hset|Hset].
  - pose proof (Old_member_orderProjection p) as H1.
    pose proof (member_orderProjection q) as H2.
    rewrite HW, H2, Hset in H1.
    destruct (Old.Params_OrderProjection p) as [[|x l]|]; try discriminate.
    destruct (nonblank (Params_OrderProjection q)); discriminate.
  - pose proof (Old_member_matchProjection p) as H1.
    pose proof (member_matchProjection q) as H2.
    rewrite HW, H2, Hset in H1.
    destruct (Old.Params_MatchProjection p) as [[|x l]|]; try discriminate.
    destruct (nonblank (Params_MatchProjection q)); discriminate.
Qed.

End OldRevision.

(* ================================================================= *)
(** ** Members that are never sent, and the properties at concrete inputs *)

Section Frames.
Context {L : GoLibrary}.


End Frames.

(** The example library returns well formed floats and times. *)
Lemma exampleLibrary_wf : libraryWellFormed exampleLibrary.
Proof.
  split.
  - intros s f. cbn. repeat (destruct (String.eqb s _); [intros [= <-]; reflexivity|]).
    discriminate.
  - intros s tm. cbn. repeat (destruct (String.eqb s _); [intros [= <-]; reflexivity|]).
    discriminate.
Qed.

(** An envelope with a filter and projections is read back from its
    payload. *)
Lemma X6_witness :
  int64 (Params_MaxResults sampleEnvelope) = true /\
  survives (L := exampleLibrary) (reflect_Params sampleEnvelope) T.Params = true /\
  exists j,
    Marshal (L := exampleLibrary) T.Params (reflect_Params sampleEnvelope) = Ok j /\
    Unmarshal (L := exampleLibrary) (Text j) T.Params (zero T.Params)
    = (reflect_Params sampleEnvelope, None).
Proof.
  assert (H1 : int64 (Params_MaxResults sampleEnvelope) = true) by reflexivity.
  assert (H2 : survives (L := exampleLibrary) (reflect_Params sampleEnvelope) T.Params = true)
    by (vm_compute; reflexivity).
  split; [exact H1|]. split; [exact H2|].
  exact (proj1 (X6_payload_determines_envelope (L := exampleLibrary) sampleEnvelope H1 H2)).
Defined.

(** [ListCountries] answered with [null]. *)
Lemma X7_witness :
  envelope (OpListCountries None)
  = Returns (mkParams None None None None EmptyString EmptyString 0 EmptyString) /\
  call (L := exampleLibrary) (answering (Text JNull)) englishSession (OpListCountries None)
  = Returns (VNil, None).
Proof.
  assert (H : envelope (OpListCountries None)
              = Returns (mkParams None None None None EmptyString EmptyString 0 EmptyString))
    by reflexivity.
  split; [exact H|].
  exact (proj1 (X7_null_and_empty_answers (L := exampleLibrary) (answering (Text JNull))
                  englishSession (OpListCountries None) _ H) eq_refl).
Defined.

(** [ListCountries] answered with a fault object. *)
Lemma X8_witness :
  envelope (OpListCountries None)
  = Returns (mkParams None None None None EmptyString EmptyString 0 EmptyString) /\
  answerKind faultAnswer = Some "object" /\
  call (L := exampleLibrary) (answering (Text faultAnswer)) englishSession
    (OpListCountries None)
  = Returns (VNil, Some (UnmarshalTypeError "object" "slice")).
Proof.
  assert (H : envelope (OpListCountries None)
              = Returns (mkParams None None None None EmptyString EmptyString 0 EmptyString))
    by reflexivity.
  assert (H2 : answerKind faultAnswer = Some "object") by reflexivity.
  split; [exact H|]. split; [exact H2|].
  exact (X8_fault_answers (L := exampleLibrary) (answering (Text faultAnswer))
           englishSession (OpListCountries None) _ faultAnswer "object" H H2 eq_refl).
Defined.

(** [ListCountries] answered with two countries returns typed results. *)
Lemma X9_witness :
  libraryWellFormed exampleLibrary /\
  call (L := exampleLibrary) (answering (Text sampleCountriesJSON)) englishSession
    (OpListCountries None)
  = Returns (sampleCountries, None) /\
  has_type sampleCountries (TSlice (resultType (OpListCountries None))) = true.
Proof.
  assert (H : call (L := exampleLibrary) (answering (Text sampleCountriesJSON))
                englishSession (OpListCountries None)
              = Returns (sampleCountries, None)) by reflexivity.
  split; [exact exampleLibrary_wf|]. split; [exact H|].
  exact (X9_results_are_typed (L := exampleLibrary) exampleLibrary_wf
           (answering (Text sampleCountriesJSON)) englishSession
           (OpListCountries None) _ _ H).
Defined.

(** [ListCountries] answered with the document of two countries returns
    them. *)
Lemma X10_witness :
  envelope (OpListCountries None)
  = Returns (mkParams None None None None EmptyString EmptyString 0 EmptyString) /\
  has_type sampleCountries (TSlice (resultType (OpListCountries None))) = true /\
  survives (L := exampleLibrary) sampleCountries
    (TSlice (resultType (OpListCountries None))) = true /\
  Marshal (L := exampleLibrary) (TSlice (resultType (OpListCountries None))) sampleCountries
  = Ok sampleCountriesJSON /\
  call (L := exampleLibrary) (answering (Text sampleCountriesJSON)) englishSession
    (OpListCountries None)
  = Returns (sampleCountries, None).
Proof.
  assert (H : envelope (OpListCountries None)
              = Returns (mkParams None None None None EmptyString EmptyString 0 EmptyString))
    by reflexivity.
  assert (H1 : has_type sampleCountries (TSlice (resultType (OpListCountries None))) = true)
    by reflexivity.
  assert (H2 : survives (L := exampleLibrary) sampleCountries
                 (TSlice (resultType (OpListCountries None))) = true)
    by (vm_compute; reflexivity).
  assert (H3 : Marshal (L := exampleLibrary) (TSlice (resultType (OpListCountries None)))
                 sampleCountries = Ok sampleCountriesJSON) by reflexivity.
  split; [exact H|]. split; [exact H1|]. split; [exact H2|]. split; [exact H3|].
  exact (X10_results_as_encoded (L := exampleLibrary) (answering (Text sampleCountriesJSON))
           englishSession (OpListCountries None) _ sampleCountries sampleCountriesJSON
           H H1 H2 H3 eq_refl).
Defined.

(** An earlier envelope asking for all orders against a current one. *)
Lemma X14_witness :
  nonempty (Old.Params_OrderProjection sampleOldEnvelope)
  || nonempty (Old.Params_MatchProjection sampleOldEnvelope) = true /\
  Marshal (L := exampleLibrary) Old.T.Params (Old.reflect_Params sampleOldEnvelope)
  <> Marshal (L := exampleLibrary) T.Params (reflect_Params sampleEnvelope).
Proof.
  assert (H : nonempty (Old.Params_OrderProjection sampleOldEnvelope)
              || nonempty (Old.Params_MatchProjection sampleOldEnvelope) = true)
    by reflexivity.
  split; [exact H|].
  exact (X14_projection_wire_form_changed (L := exampleLibrary)
           sampleOldEnvelope sampleEnvelope H).
Defined.

